(** * puppeteer-page-pool: a page resource pool for Puppeteer

    A shallow embedding of [index.js] (the [Helpers.poolFactory] strategy and
    the [PagePool] class) together with the statements the specification
    makes about them.

    The repository holds two revisions of [index.js]: [src/index.js] and the
    one at the head of [src/unnamed/part_000].  They differ in a handful of
    places (extra "done" diagnostics, the name of the destroy hook, the
    guard around the browser launch); the embedding takes the revision as a
    parameter and branches exactly where the two texts differ. *)

From Stdlib Require Import List String ZArith Bool Arith Lia.
Import ListNotations.
Local Open Scope string_scope.

(** ** JavaScript values *)

Module JS.

Set Warnings "-register-all".

(** The values the module handles.  Plain objects are kept by their own
    enumerable properties; functions, pages, browsers, pools and puppeteer
    libraries are host objects known by an identifier, their behaviour being
    supplied by the environment (see [Env] below). *)
Inductive value : Type :=
| VUndefined
| VNull
| VBool (b : bool)
| VNum (n : Z)
| VNaN
| VStr (s : string)
| VArray (xs : list value)
| VObject (props : list (string * value))
| VFunction (f : nat)
| VError (msg : string)
| VPage (p : nat)
| VBrowser (b : nat)
| VPool (k : nat)
| VPuppeteer (l : nat).

(** [typeof v] *)
Definition typeof (v : value) : string :=
  match v with
  | VUndefined => "undefined"
  | VBool _ => "boolean"
  | VNum _ | VNaN => "number"
  | VStr _ => "string"
  | VFunction _ => "function"
  | VNull | VArray _ | VObject _ | VError _
  | VPage _ | VBrowser _ | VPool _ | VPuppeteer _ => "object"
  end.

(** [!!v], the truthiness test of [if (v)] *)
Definition to_boolean (v : value) : bool :=
  match v with
  | VUndefined | VNull | VNaN => false
  | VBool b => b
  | VNum n => negb (Z.eqb n 0)
  | VStr s => negb (String.eqb s "")
  | _ => true
  end.

(** [Array.isArray(v)] *)
Definition is_array (v : value) : bool :=
  match v with VArray _ => true | _ => false end.

(** [typeof (v) === 'function'] *)
Definition is_function (v : value) : bool := String.eqb (typeof v) "function".

(** [a || b] *)
Definition js_or (a b : value) : value := if to_boolean a then a else b.

Fixpoint lookup (key : string) (props : list (string * value)) : value :=
  match props with
  | [] => VUndefined
  | (k, v) :: rest => if String.eqb k key then v else lookup key rest
  end.

Fixpoint store (key : string) (v : value) (props : list (string * value))
  : list (string * value) :=
  match props with
  | [] => [(key, v)]
  | (k, w) :: rest =>
      if String.eqb k key then (k, v) :: rest else (k, w) :: store key v rest
  end.

(** [o.key] on a value that is neither [null] nor [undefined]; the
    properties of host objects and arrays are not tracked and read as
    [undefined]. *)
Definition get_prop (o : value) (key : string) : value :=
  match o with
  | VObject props => lookup key props
  | _ => VUndefined
  end.

(** Classifiers used in statements only (the code never calls them). *)
Definition is_boolean (v : value) : bool :=
  match v with VBool _ => true | _ => false end.

Definition is_absent (v : value) : bool :=
  match v with VUndefined | VNull => true | _ => false end.

(** A non-null, non-array object: a plain object, an error or a host
    object. *)
Definition is_plain_object (v : value) : bool :=
  match v with
  | VObject _ | VError _ | VPage _ | VBrowser _ | VPool _ | VPuppeteer _ => true
  | _ => false
  end.

End JS.
Import JS.

(** ** The instance, the observable events and the environment *)

(** The three fields of a [PagePool] instance. *)
Record instance : Type := {
  browser : value;
  options : value;
  pool : value;
}.

(** What a run of the module does that an observer (the test suite's mocks)
    can see, in the order it happens. *)
Inductive event : Type :=
| Debug (fmt : string) (args : list value)     (* Helpers.debug(fmt, ...args) *)
| Launch (lib : nat) (opts : value)            (* puppeteer.launch(opts) *)
| NewPage (b : nat)                            (* browser.newPage() *)
| CloseBrowser (b : nat)                       (* browser.close() *)
| IsClosed (p : nat)                           (* page.isClosed() *)
| ClosePage (p : nat)                          (* page.close() *)
| Call (f : nat) (self : option instance) (args : list value)
                                               (* f.call(self, ...args) *)
| CreatePool (opts : value)                    (* Helpers.createPool(factory, opts) *)
| PoolOn (k : nat) (topic : string)            (* pool.on(topic, listener) *)
| PoolDrain (k : nat)                          (* pool.drain() *)
| PoolClear (k : nat)                          (* pool.clear() *)
| PoolAcquire (k : nat)                        (* pool.acquire() *)
| PoolRelease (k : nat) (page : value).        (* pool.release(page) *)

Definition is_debug (e : event) : bool :=
  match e with Debug _ _ => true | _ => false end.

Definition is_pool_op (e : event) : bool :=
  match e with
  | PoolOn _ _ | PoolDrain _ | PoolClear _ | PoolAcquire _ | PoolRelease _ _ => true
  | _ => false
  end.

Definition is_call (e : event) : bool :=
  match e with Call _ _ _ => true | _ => false end.

(** The diagnostics of a log, in order. *)
Definition diagnostics (l : list event) : list event := filter is_debug l.

(** The world outside the module: which pages are closed, and a counter the
    collaborators may advance to answer differently from call to call. *)
Record world : Type := {
  closed : list nat;
  ticks : nat;
}.

(** The outcome of awaiting an expression: fulfilled with a value, or
    thrown / rejected with a reason. *)
Inductive result (A : Type) : Type :=
| Ok (a : A)
| Err (ex : value).
Arguments Ok {A} a.
Arguments Err {A} ex.

(** The collaborators the module is handed: user functions (hooks and
    handlers), the puppeteer library, the browser and its pages,
    [generic-pool]'s [createPool] and the pool it returns.  Each answers
    from the current world and may change it; every awaited call may be
    rejected.  [createPool_begins] is the number of [create()] calls the
    pool makes on the factory while it is being constructed (its configured
    minimum).  User functions are given the instance as it is when they are
    called; they are taken not to assign its fields. *)
Record Env : Type := {
  apply : nat -> option instance -> list value -> world -> result value * world;
  puppeteer_launch : nat -> value -> world -> result value * world;
  browser_newPage : nat -> world -> result value * world;
  browser_close : nat -> world -> result value * world;
  page_close : nat -> world -> result value * world;
  createPool : value -> world -> value;
  createPool_begins : value -> world -> nat;
  pool_acquire : nat -> world -> result value * world;
  pool_drain : nat -> world -> result value * world;
  pool_clear : nat -> world -> result value * world;
}.

(** ** Stateful, fallible computations *)

Record state : Type := {
  log : list event;
  wld : world;
  this : instance;
}.

Definition M (A : Type) : Type := state -> result A * state.

Definition ret {A} (a : A) : M A := fun s => (Ok a, s).

Definition throw {A} (ex : value) : M A := fun s => (Err ex, s).

Definition bind {A B} (c : M A) (k : A -> M B) : M B :=
  fun s =>
    match c s with
    | (Ok a, s') => k a s'
    | (Err ex, s') => (Err ex, s')
    end.

(** [try { c } catch (ex) { h ex }], also [c.catch(h)] *)
Definition try_catch {A} (c : M A) (h : value -> M A) : M A :=
  fun s =>
    match c s with
    | (Ok a, s') => (Ok a, s')
    | (Err ex, s') => h ex s'
    end.

Declare Scope js_scope.
Delimit Scope js_scope with js.
Notation "x <- c ;; k" := (bind c (fun x => k))
  (at level 61, c at next level, right associativity) : js_scope.
Notation "c ;; k" := (bind c (fun _ => k))
  (at level 61, right associativity) : js_scope.
Local Open Scope js_scope.

Definition emit (e : event) : M unit :=
  fun s => (Ok tt, {| log := log s ++ [e]; wld := wld s; this := this s |}).

Definition get_this : M instance := fun s => (Ok (this s), s).

Definition set_this (i : instance) : M unit :=
  fun s => (Ok tt, {| log := log s; wld := wld s; this := i |}).

(** Run a collaborator on the world. *)
Definition external {A} (c : world -> result A * world) : M A :=
  fun s =>
    let (r, w) := c (wld s) in
    (r, {| log := log s; wld := w; this := this s |}).

Definition type_error : value := VError "TypeError".

(** [Helpers.debug(fmt, ...args)]; the call evaluates to [undefined]. *)
Definition debug (fmt : string) (args : list value) : M value :=
  emit (Debug fmt args) ;; ret VUndefined.

(** The default of a destructuring pattern applies to [undefined] only. *)
Definition or_default (v dflt : value) : value :=
  match v with VUndefined => dflt | _ => v end.

(** [const { key = dflt } = o] *)
Definition destructure (o : value) (key : string) (dflt : value) : M value :=
  if is_absent o then throw type_error
  else ret (or_default (get_prop o key) dflt).

(** [page.isClosed()] *)
Definition isClosed (page : value) : M bool :=
  match page with
  | VPage p =>
      emit (IsClosed p) ;;
      fun s => (Ok (existsb (Nat.eqb p) (closed (wld s))), s)
  | _ => throw type_error
  end.

(** [await page.close()] *)
Definition close_page (env : Env) (page : value) : M unit :=
  match page with
  | VPage p => emit (ClosePage p) ;; external (page_close env p) ;; ret tt
  | _ => throw type_error
  end.

(** ** The source *)

(** The two revisions of [index.js] in the repository. *)
Inductive revision : Type :=
| IndexJs      (* src/index.js *)
| Part000.     (* src/unnamed/part_000 *)

(** [Helpers.defaultPuppeteer] *)
Definition defaultPuppeteer : value := VPuppeteer 0.

(** [Helpers.defaultPuppeteerArgs] *)
Definition defaultPuppeteerArgs (rev : revision) : value :=
  VArray (map VStr
    match rev with
    | IndexJs =>
        [ "--disable-breakpad"; "--disable-crash-reporter";
          "--disable-dev-profile"; "--disable-dev-shm-usage";
          "--disable-notifications";
          "--disable-offer-store-unmasked-wallet-cards";
          "--disable-offer-upload-credit-cards"; "--disable-setuid-sandbox";
          "--disable-web-security"; "--enable-async-dns";
          "--enable-simple-cache-backend"; "--enable-tcp-fast-open";
          "--media-cache-size=33554432"; "--no-default-browser-check";
          "--no-pings"; "--no-sandbox"; "--no-zygote";
          "--prerender-from-omnibox=disabled" ]
    | Part000 =>
        [ "--disable-crash-reporter"; "--disable-dev-profile";
          "--disable-gpu"; "--disable-notifications";
          "--disable-offer-store-unmasked-wallet-cards";
          "--disable-offer-upload-credit-cards";
          "--disable-password-generation"; "--disable-setuid-sandbox";
          "--disable-speech-api"; "--disable-suggestions-ui";
          "--disable-web-security"; "--enable-async-dns";
          "--enable-tcp-fast-open"; "--hide-scrollbars";
          "--no-default-browser-check"; "--no-experiments"; "--no-pings";
          "--no-sandbox"; "--no-zygote"; "--prerender-from-omnibox=disabled" ]
    end).

(** The option the destroy hook is read from:
    [onBeforePageDestroy] in src/index.js, [onPageDestroy] in part_000. *)
Definition destroy_hook_name (rev : revision) : string :=
  match rev with
  | IndexJs => "onBeforePageDestroy"
  | Part000 => "onPageDestroy"
  end.

Module Helpers.

Section Calls.

Variable env : Env.
Variable rev : revision.

(** [await f.call(self, ...args)] and [await f(...args)] *)
Definition call (fn : value) (self : option instance) (args : list value)
  : M value :=
  match fn with
  | VFunction f => emit (Call f self args) ;; external (apply env f self args)
  | _ => throw type_error
  end.

(** A diagnostic only part_000 emits. *)
Definition debug_part000 (fmt : string) (args : list value) : M unit :=
  match rev with
  | IndexJs => ret tt
  | Part000 => debug fmt args ;; ret tt
  end.

(** [await this.browser.newPage().catch(ex => Helpers.debug(...))]: reading
    [newPage] off something that is not a browser throws before there is a
    promise to attach the handler to. *)
Definition newPage_or_report (b : value) : M value :=
  match b with
  | VBrowser n =>
      try_catch (emit (NewPage n) ;; external (browser_newPage env n))
                (fun ex => debug "create page error: %s" [ex])
  | _ => throw type_error
  end.

(** What a call of [create] does before its first [await] settles: it
    reads the hook off the options and calls [newPage].  What becomes of
    the page belongs to the pool's later life.  An [async] function does not
    throw to its caller: a failure here is a rejected promise in the pool's
    hands. *)
Definition begin_create : M unit :=
  self <- get_this ;;
  try_catch
    (destructure (options self) "onPageCreated" VNull ;;
     match browser self with
     | VBrowser n =>
         emit (NewPage n) ;;
         external (fun w => (Ok tt, snd (browser_newPage env n w)))
     | _ => throw type_error
     end)
    (fun _ => ret tt).

End Calls.

Module poolFactory.

Section Factory.

Variable env : Env.
Variable rev : revision.

(** [async create ()] *)
Definition create : M value :=
  self <- get_this ;;
  onPageCreated <- destructure (options self) "onPageCreated" VNull ;;
  page <- newPage_or_report env (browser self) ;;
  (if to_boolean page then
     debug "page is created" [] ;;
     if is_function onPageCreated then
       try_catch
         (call env onPageCreated (Some self) [page] ;;
          debug_part000 rev "onPageCreated done" [])
         (fun ex => debug "onPageCreated error: %s" [ex] ;; ret tt)
     else ret tt
   else ret tt) ;;
  ret page.

(** [async destroy (page)] *)
Definition destroy (page : value) : M value :=
  self <- get_this ;;
  hook <- destructure (options self) (destroy_hook_name rev) VNull ;;
  (if to_boolean page then
     (if is_function hook then
        try_catch
          (call env hook (Some self) [page] ;;
           debug_part000 rev (destroy_hook_name rev ++ " done") [])
          (fun ex => debug (destroy_hook_name rev ++ " error: %s") [ex] ;; ret tt)
      else ret tt) ;;
     is_closed <- isClosed page ;;
     (if negb is_closed then close_page env page else ret tt) ;;
     debug "page is destroyed" [] ;;
     ret tt
   else ret tt) ;;
  ret VUndefined.

(** [async validate (page)] *)
Definition validate (page : value) : M value :=
  self <- get_this ;;
  onValidate <- destructure (options self) "onValidate" VNull ;;
  let response := VBool false in
  response <-
    (if to_boolean page then
       if is_function onValidate then
         try_catch
           (response <- call env onValidate (Some self) [page] ;;
            debug_part000 rev "onValidate done: %s" [response] ;;
            ret response)
           (fun ex => debug "onValidate error: %s" [ex] ;; ret response)
       else ret (VBool true)
     else ret response) ;;
  ret response.

End Factory.

End poolFactory.

End Helpers.

(** ** The pool handle ([generic-pool], a dependency outside the repository) *)

(** [on], [drain], [clear], [acquire] and [release] are observed as calls
    on the handle; the awaited ones settle as the environment says. *)
Module Pool.

(** [pool.on(topic, listener)] *)
Definition on (pl : value) (topic : string) : M unit :=
  match pl with
  | VPool k => emit (PoolOn k topic)
  | _ => throw type_error
  end.

(** [await pool.drain()] *)
Definition drain (env : Env) (pl : value) : M unit :=
  match pl with
  | VPool k => emit (PoolDrain k) ;; external (pool_drain env k) ;; ret tt
  | _ => throw type_error
  end.

(** [await pool.clear()] *)
Definition clear (env : Env) (pl : value) : M unit :=
  match pl with
  | VPool k => emit (PoolClear k) ;; external (pool_clear env k) ;; ret tt
  | _ => throw type_error
  end.

(** [pool.release(page)] *)
Definition release (k : nat) (page : value) : M unit :=
  emit (PoolRelease k page).

Section Use.

Variable env : Env.

(** [pool.acquire()]: the pool admits the request and hands out a page, or
    fails it (creation failure, timeout, pool draining). *)
Definition acquire (k : nat) : M value :=
  emit (PoolAcquire k) ;; external (pool_acquire env k).

(** Modelled from the spec: [pool.use(fn)] of [generic-pool], which is not
    part of the repository.  Section 4.3 describes the borrow-use-release
    step of [process] as: acquire a Resource, invoke the function on it,
    then always release the Resource back to the Pool Engine, whether the
    function completes normally or fails; a failure of the function is the
    failure of [use]. *)
Definition use (k : nat) (fn : value -> M value) : M value :=
  page <- acquire k ;;
  fun s =>
    match fn page s with
    | (Ok r, s') => (release k page ;; ret r) s'
    | (Err ex, s') => (release k page ;; throw ex) s'
    end.

End Use.

End Pool.

(** ** [class PagePool] *)

Module PagePool.

(** [constructor (options = {})] *)
Definition constructor (arg : value) : instance :=
  let options := match arg with VUndefined => VObject [] | _ => arg end in
  {| browser := VNull;
     options :=
       if String.eqb (typeof options) "object" && to_boolean options
          && negb (is_array options)
       then options else VObject [];
     pool := VNull |}.

Section Methods.

Variable env : Env.
Variable rev : revision.

(** [await this.browser.close()] *)
Definition close_browser (b : value) : M unit :=
  match b with
  | VBrowser n => emit (CloseBrowser n) ;; external (browser_close env n) ;; ret tt
  | _ => throw type_error
  end.

(** [async destroy ()] *)
Definition destroy : M value :=
  self <- get_this ;;
  (if to_boolean (pool self) then
     Pool.drain env (pool self) ;;
     Pool.clear env (pool self) ;;
     debug "pool is closed" [] ;;
     ret tt
   else ret tt) ;;
  self <- get_this ;;
  (if to_boolean (browser self) then
     close_browser (browser self) ;;
     debug "browser is closed" [] ;;
     ret tt
   else ret tt) ;;
  set_this {| browser := VNull; options := VNull; pool := VNull |} ;;
  ret VNull.

(** [puppeteerOptions.args = puppeteerOptions.args || Helpers.defaultPuppeteerArgs]
    in strict mode: a property cannot be read off [null] nor created on a
    primitive.  On arrays, functions and host objects the assignment goes
    through, but their properties are not tracked here. *)
Definition assign_args (po : value) : M value :=
  match po with
  | VObject props =>
      ret (VObject (store "args"
                      (js_or (lookup "args" props) (defaultPuppeteerArgs rev))
                      props))
  | VUndefined | VNull | VBool _ | VNum _ | VNaN | VStr _ => throw type_error
  | _ => ret po
  end.

(** The object assigned to is the one [this.options] holds, when it holds
    one: the assignment shows through [this.options.puppeteerOptions]. *)
Definition write_back (po : value) : M unit :=
  self <- get_this ;;
  match options self, get_prop (options self) "puppeteerOptions" with
  | VObject props, VObject _ =>
      set_this {| browser := browser self;
                  options := VObject (store "puppeteerOptions" po props);
                  pool := pool self |}
  | _, _ => ret tt
  end.

(** [puppeteer.launch(puppeteerOptions)], awaited *)
Definition launch_browser (lib opts : value) : M value :=
  match lib with
  | VPuppeteer l => emit (Launch l opts) ;; external (puppeteer_launch env l opts)
  | _ => throw type_error
  end.

(** The calls of [create] a pool makes while it is constructed. *)
Fixpoint begin_creates (n : nat) : M unit :=
  match n with
  | 0 => ret tt
  | S m => Helpers.begin_create env ;; begin_creates m
  end.

(** [Helpers.createPool({ create, destroy, validate }, poolOptions)], the
    three factory operations being [Helpers.poolFactory]'s bound to [this]:
    the pool is handed the factory and calls its [create] as often as it
    begins with; there is nothing yet to validate or destroy. *)
Definition create_pool (poolOptions : value) : M value :=
  emit (CreatePool poolOptions) ;;
  begun <- (fun s => (Ok (createPool_begins env poolOptions (wld s)), s)) ;;
  pl <- (fun s => (Ok (createPool env poolOptions (wld s)), s)) ;;
  begin_creates begun ;;
  ret pl.

Definition set_browser (b : value) : M unit :=
  self <- get_this ;;
  set_this {| browser := b; options := options self; pool := pool self |}.

Definition set_pool (pl : value) : M unit :=
  self <- get_this ;;
  set_this {| browser := browser self; options := options self; pool := pl |}.

(** [async launch ()] *)
Definition launch : M value :=
  self <- get_this ;;
  poolOptions <- destructure (options self) "poolOptions" (VObject []) ;;
  puppeteer <- destructure (options self) "puppeteer" defaultPuppeteer ;;
  puppeteerOptions <- destructure (options self) "puppeteerOptions" (VObject []) ;;
  puppeteerOptions <- assign_args puppeteerOptions ;;
  write_back puppeteerOptions ;;
  match rev with
  | IndexJs =>
      b <- launch_browser puppeteer puppeteerOptions ;;
      set_browser b ;;
      debug "browser is created" [] ;;
      pl <- create_pool poolOptions ;;
      set_pool pl
  | Part000 =>
      b <- match puppeteer with
           | VPuppeteer _ =>
               try_catch (launch_browser puppeteer puppeteerOptions)
                         (fun ex => debug "browser create error: %s" [ex])
           | _ => throw type_error
           end ;;
      set_browser b ;;
      if to_boolean b then
        debug "browser is created with: %j" [puppeteerOptions] ;;
        pl <- create_pool poolOptions ;;
        set_pool pl
      else ret tt
  end ;;
  self <- get_this ;;
  (if to_boolean (pool self) then
     match rev with
     | IndexJs => debug "pool is created" []
     | Part000 => debug "pool is created with: %j" [poolOptions]
     end ;;
     Pool.on (pool self) "factoryCreateError" ;;
     Pool.on (pool self) "factoryDestroyError"
   else
     debug "pool is not created" [] ;; ret tt) ;;
  ret VUndefined.

(** [page => handler(page, ...args, this.pool)] *)
Definition handler_callback (handler : value) (args : list value)
  : value -> M value :=
  fun page =>
    self <- get_this ;;
    Helpers.call env handler None (page :: args ++ [pool self]).

(** [async process (handler, ...args)] *)
Definition process (handler : value) (args : list value) : M value :=
  self <- get_this ;;
  (if negb (to_boolean (pool self)) then
     debug "pool is not found. Did you forgot to call launch() method?" [] ;;
     ret tt
   else if negb (is_function handler) then
     debug "handler is not a function" [] ;;
     ret tt
   else
     match pool self with
     | VPool k =>
         try_catch (Pool.use env k (handler_callback handler args) ;; ret tt)
                   (fun ex => debug "process error: %s" [ex] ;; ret tt)
     | _ => throw type_error
     end) ;;
  ret VUndefined.

End Methods.

End PagePool.

(** ** The Pool Engine *)

Module Engine.

(** Modelled from the spec: the Pool Engine that [Helpers.createPool]
    returns is [generic-pool]'s and is not part of the repository.  Sections
    3, 4.2 and 5 describe it: a set of live Resources bounded by the
    configured maximum, an idle set, the Resources lent out, and a FIFO
    queue of pending borrow requests; all transitions run one at a time on
    one logical thread.  Resources are named by the order of their creation,
    requests by a number the caller picks.  The acquire timeout, which
    needs a notion of elapsed time, is left out. *)
Record pool : Type := {
  max : nat;
  idle : list nat;
  borrowed : list nat;
  waiting : list nat;
  minted : nat;
  clock : nat;
  draining : bool;
  destroyed : list nat;
}.

(** What a borrow request is told. *)
Inductive answer : Type :=
| Lent (r : nat)
| Queued
| Failed.

Inductive op : Type :=
| Acquire (req : nat)
| Release (r : nat).

(** Modelled from the spec: a pool as constructed, nothing created yet. *)
Definition create_pool (m : nat) : pool :=
  {| max := m; idle := []; borrowed := []; waiting := []; minted := 0;
     clock := 0; draining := false; destroyed := [] |}.

Fixpoint remove_first (r : nat) (l : list nat) : list nat :=
  match l with
  | [] => []
  | x :: rest => if Nat.eqb x r then rest else x :: remove_first r rest
  end.

Section WithFactory.

(** The Resource Factory as the engine sees it: whether the creation
    attempted at a given moment yields a Resource, and whether a Resource is
    eligible at a given moment. *)
Variable creates : nat -> bool.
Variable validates : nat -> nat -> bool.

(** Modelled from the spec: [create()] through the factory; the Resource
    produced, if any, is lent to the caller at once. *)
Definition mint_and_lend (st : pool) : pool * answer :=
  if creates (clock st) then
    ({| max := max st; idle := idle st;
        borrowed := minted st :: borrowed st;
        waiting := waiting st; minted := S (minted st);
        clock := S (clock st); draining := draining st;
        destroyed := destroyed st |},
     Lent (minted st))
  else
    ({| max := max st; idle := idle st; borrowed := borrowed st;
        waiting := waiting st; minted := minted st;
        clock := S (clock st); draining := draining st;
        destroyed := destroyed st |},
     Failed).

(** Modelled from the spec, section 4.2, [acquire()]: an idle Resource is
    validated before it is handed out, an invalid one is destroyed and a
    fresh one created in its place; with nothing idle and the live count
    below the maximum a Resource is created; at the maximum the answer is
    to wait. *)
Definition dispense (st : pool) : pool * answer :=
  match idle st with
  | r :: rest =>
      if validates (clock st) r then
        ({| max := max st; idle := rest; borrowed := r :: borrowed st;
            waiting := waiting st; minted := minted st;
            clock := S (clock st); draining := draining st;
            destroyed := destroyed st |},
         Lent r)
      else
        mint_and_lend
          {| max := max st; idle := rest; borrowed := borrowed st;
             waiting := waiting st; minted := minted st;
             clock := S (clock st); draining := draining st;
             destroyed := r :: destroyed st |}
  | [] =>
      if Nat.ltb (List.length (idle st) + List.length (borrowed st)) (max st)
      then mint_and_lend st
      else (st, Queued)
  end.

(** Modelled from the spec: a pending borrow request joins the end of the
    wait queue. *)
Definition enqueue (req : nat) (st : pool) : pool :=
  {| max := max st; idle := idle st; borrowed := borrowed st;
     waiting := waiting st ++ [req]; minted := minted st;
     clock := clock st; draining := draining st;
     destroyed := destroyed st |}.

(** Modelled from the spec: [acquire()] by request [req]; a draining pool
    accepts no new request. *)
Definition acquire (req : nat) (st : pool) : pool * list (nat * answer) :=
  if draining st then (st, [(req, Failed)])
  else
    match dispense st with
    | (st', Queued) => (enqueue req st', [(req, Queued)])
    | (st', a) => (st', [(req, a)])
    end.

(** Modelled from the spec: the oldest pending request is served when a
    Resource becomes free. *)
Definition serve_waiting (st : pool) : pool * list (nat * answer) :=
  match waiting st with
  | [] => (st, [])
  | req :: rest =>
      match dispense st with
      | (st', Queued) => (st', [])
      | (st', a) =>
          ({| max := max st'; idle := idle st'; borrowed := borrowed st';
              waiting := rest; minted := minted st'; clock := clock st';
              draining := draining st'; destroyed := destroyed st' |},
           [(req, a)])
      end
  end.

(** Modelled from the spec, section 4.2, [release(resource)]: the Resource
    goes back to the idle set, or is destroyed if the pool is draining;
    a Resource that is not on loan is not the pool's to take back. *)
Definition release (r : nat) (st : pool) : pool * list (nat * answer) :=
  if existsb (Nat.eqb r) (borrowed st) then
    if draining st then
      ({| max := max st; idle := idle st;
          borrowed := remove_first r (borrowed st);
          waiting := waiting st; minted := minted st; clock := clock st;
          draining := draining st; destroyed := r :: destroyed st |}, [])
    else
      serve_waiting
        {| max := max st; idle := idle st ++ [r];
           borrowed := remove_first r (borrowed st);
           waiting := waiting st; minted := minted st; clock := clock st;
           draining := draining st; destroyed := destroyed st |}
  else (st, []).

Definition step (st : pool) (o : op) : pool * list (nat * answer) :=
  match o with
  | Acquire req => acquire req st
  | Release r => release r st
  end.

(** The pool after a sequence of operations. *)
Fixpoint run (ops : list op) (st : pool) : pool :=
  match ops with
  | [] => st
  | o :: rest => run rest (fst (step st o))
  end.

End WithFactory.

End Engine.

(** ** Vocabulary of the statements *)

(** The diagnostic whose format string is [fmt]. *)
Definition debug_is (fmt : string) (e : event) : bool :=
  match e with Debug f _ => String.eqb f fmt | _ => false end.

(** How many events of a list pass a test. *)
Definition occurrences (test : event -> bool) (l : list event) : nat :=
  List.length (filter test l).

(** What [validate] answers when its hook ran to completion with [r], had
    the result been coerced to a boolean. *)
Definition coerced (r : value) : value := VBool (to_boolean r).

(** An instance whose pool and browser fields hold what the class itself
    assigns to them: nothing, or the handle obtained at launch. *)
Definition handles_or_nothing (i : instance) : bool :=
  match pool i with VNull | VUndefined | VPool _ => true | _ => false end
  && match browser i with VNull | VUndefined | VBrowser _ => true | _ => false end.




(** What the destroy hook leaves in the log once it has settled: nothing
    (src/index.js) or a "done" diagnostic (part_000) when it completed, the
    error diagnostic when it failed. *)
Definition hook_report (rev : revision) (r : result value) : list event :=
  match r with
  | Ok _ =>
      match rev with
      | IndexJs => []
      | Part000 => [Debug (destroy_hook_name rev ++ " done") []]
      end
  | Err ex => [Debug (destroy_hook_name rev ++ " error: %s") [ex]]
  end.

(** The status check of page [p] in world [w], and the close it leads to. *)
Definition close_if_open (p : nat) (w : world) : list event :=
  IsClosed p :: if existsb (Nat.eqb p) (closed w) then [] else [ClosePage p].

Definition world_after_close (env : Env) (p : nat) (w : world) : world :=
  if existsb (Nat.eqb p) (closed w) then w else snd (page_close env p w).

(** Closing page [p] in world [w] completes: there is nothing to close, or
    [close()] is fulfilled. *)
Definition close_completes (env : Env) (p : nat) (w : world) : Prop :=
  existsb (Nat.eqb p) (closed w) = true
  \/ exists v, fst (page_close env p w) = Ok v.

(** The world once the hook [hook] has settled on [page]: the one the call
    leaves behind when [hook] is a function, the one it was otherwise. *)
Definition world_after_hook (env : Env) (hook : value) (self : instance)
    (page : value) (w : world) : world :=
  match hook with
  | VFunction f => snd (apply env f (Some self) [page] w)
  | _ => w
  end.

(** The [newPage] calls of a pool that begins with [n] pages, on the
    browser [bv], and the world they leave behind; a value that is no
    browser has no [newPage] to call. *)
Definition page_openings (bv : value) (n : nat) : list event :=
  match bv with
  | VBrowser b => repeat (NewPage b) n
  | _ => []
  end.

Fixpoint world_after_newPages (env : Env) (b n : nat) (w : world) : world :=
  match n with
  | 0 => w
  | S m => world_after_newPages env b m (snd (browser_newPage env b w))
  end.

Definition world_after_openings (env : Env) (bv : value) (n : nat)
    (w : world) : world :=
  match bv with
  | VBrowser b => world_after_newPages env b n w
  | _ => w
  end.

(** The options [launch] hands to [puppeteer.launch]: the configured
    [puppeteerOptions] with [args] defaulted. *)
Definition launch_options (rev : revision) (po : list (string * value)) : value :=
  VObject (store "args" (js_or (lookup "args" po) (defaultPuppeteerArgs rev)) po).

(** A pool that accepts requests and whose live Resources, idle or on
    loan, are no more than its maximum. *)
Definition within_capacity (st : Engine.pool) : Prop :=
  Engine.draining st = false
  /\ List.length (Engine.idle st) + List.length (Engine.borrowed st)
     <= Engine.max st.

(** ** Sample collaborators, after the mocks of the test suite *)

Module Sample.

Definition boom : value := VError "error".

Definition calm : world := {| closed := []; ticks := 0 |}.

(** User function 1 throws, function 2 answers the number 1, function 3
    closes page 0, every other one returns [undefined]; puppeteer library 0
    launches browser 0 and any other fails to launch; browser 0 mints page
    0 and any other fails to; [createPool] returns pool 0, which begins
    with no page and lends page 0; closing, draining and clearing
    complete. *)
Definition env : Env :=
  {| apply := fun f _ _ w =>
       match f with
       | 1 => (Err boom, w)
       | 2 => (Ok (VNum 1), w)
       | 3 => (Ok VUndefined, {| closed := 0 :: closed w; ticks := ticks w |})
       | _ => (Ok VUndefined, w)
       end;
     puppeteer_launch := fun l _ w =>
       match l with
       | 0 => (Ok (VBrowser 0), w)
       | _ => (Err boom, w)
       end;
     browser_newPage := fun b w =>
       match b with
       | 0 => (Ok (VPage 0), w)
       | _ => (Err boom, w)
       end;
     browser_close := fun _ w => (Ok VUndefined, w);
     page_close := fun p w =>
       (Ok VUndefined, {| closed := p :: closed w; ticks := ticks w |});
     createPool := fun _ _ => VPool 0;
     createPool_begins := fun _ _ => 0;
     pool_acquire := fun _ w => (Ok (VPage 0), w);
     pool_drain := fun _ w => (Ok VUndefined, w);
     pool_clear := fun _ w => (Ok VUndefined, w) |}.

(** The same, with a puppeteer library that cannot launch a browser. *)
Definition offline : Env :=
  {| apply := apply env;
     puppeteer_launch := fun _ _ w => (Err boom, w);
     browser_newPage := browser_newPage env;
     browser_close := browser_close env;
     page_close := page_close env;
     createPool := createPool env;
     createPool_begins := createPool_begins env;
     pool_acquire := pool_acquire env;
     pool_drain := pool_drain env;
     pool_clear := pool_clear env |}.

(** A state with nothing logged yet. *)
Definition fresh (i : instance) : state :=
  {| log := []; wld := calm; this := i |}.

(** [new PagePool()] *)
Definition created : state := fresh (PagePool.constructor VUndefined).

(** An instance as [launch] leaves it, holding the options [opts]. *)
Definition launched (opts : list (string * value)) : state :=
  fresh {| browser := VBrowser 0; options := VObject opts; pool := VPool 0 |}.

End Sample.

(** ** The second script of [example.js] *)

Module Script.



Section Main.

Variable env : Env.
Variable rev : revision.


End Main.

End Script.

(** ** Vocabulary of the further statements *)

(** A computation takes every state to one related to it by [R]. *)
Definition preserves (R : state -> state -> Prop) {A : Type} (c : M A) : Prop :=
  forall s, R s (snd (c s)).

(** The log has only grown, by events that pass the test [P]. *)
Definition appends (P : event -> bool) (s s' : state) : Prop :=
  exists evs, log s' = (log s ++ evs)%list /\ forallb P evs = true.

Definition same_this (s s' : state) : Prop := this s' = this s.

Definition same_options (s s' : state) : Prop :=
  options (this s') = options (this s).

(** A computation only ever appends to the log, and what it appends passes
    the test [P]. *)
Definition adds (P : event -> bool) {A : Type} (c : M A) : Prop :=
  preserves (appends P) c.

(** A computation leaves the instance as it found it. *)
Definition keeps_this {A : Type} (c : M A) : Prop := preserves same_this c.

(** A computation leaves [this.options] as it found it. *)
Definition keeps_options {A : Type} (c : M A) : Prop := preserves same_options c.

(** What the relations of a frame have in common: they hold of a state and
    itself, compose, and ignore the world. *)
Record framing (R : state -> state -> Prop) : Prop := {
  framing_refl : forall s, R s s;
  framing_trans : forall s1 s2 s3, R s1 s2 -> R s2 s3 -> R s1 s3;
  framing_world :
    forall s w, R s {| log := log s; wld := w; this := this s |};
}.

(** The first thing a computation logs is [e]. *)
Definition starts (e : event) {A : Type} (c : M A) : Prop :=
  forall s, exists rest, log (snd (c s)) = (log s ++ e :: rest)%list.

(** The sample collaborators, with a pool that fails every borrow request. *)
Definition exhausted : Env :=
  {| apply := apply Sample.env;
     puppeteer_launch := puppeteer_launch Sample.env;
     browser_newPage := browser_newPage Sample.env;
     browser_close := browser_close Sample.env;
     page_close := page_close Sample.env;
     createPool := createPool Sample.env;
     createPool_begins := createPool_begins Sample.env;
     pool_acquire := fun _ w => (Err Sample.boom, w);
     pool_drain := pool_drain Sample.env;
     pool_clear := pool_clear Sample.env |}.

(** The sample collaborators, with a browser and pages that refuse to
    close. *)
Definition stuck : Env :=
  {| apply := apply Sample.env;
     puppeteer_launch := puppeteer_launch Sample.env;
     browser_newPage := browser_newPage Sample.env;
     browser_close := fun _ w => (Err Sample.boom, w);
     page_close := fun _ w => (Err Sample.boom, w);
     createPool := createPool Sample.env;
     createPool_begins := createPool_begins Sample.env;
     pool_acquire := pool_acquire Sample.env;
     pool_drain := pool_drain Sample.env;
     pool_clear := pool_clear Sample.env |}.

(** The sample collaborators, with a [createPool] that returns nothing. *)
Definition poolless : Env :=
  {| apply := apply Sample.env;
     puppeteer_launch := puppeteer_launch Sample.env;
     browser_newPage := browser_newPage Sample.env;
     browser_close := browser_close Sample.env;
     page_close := page_close Sample.env;
     createPool := fun _ _ => VNull;
     createPool_begins := createPool_begins Sample.env;
     pool_acquire := pool_acquire Sample.env;
     pool_drain := pool_drain Sample.env;
     pool_clear := pool_clear Sample.env |}.


Definition is_close_page (e : event) : bool :=
  match e with ClosePage _ => true | _ => false end.


(** What a computation answers when it completes passes the test [V]. *)
Definition yields {A : Type} (V : A -> Prop) (c : M A) : Prop :=
  forall s a s', c s = (Ok a, s') -> V a.

(** An instance that holds handles or nothing still does afterwards. *)
Definition stays_well_formed (s s' : state) : Prop :=
  handles_or_nothing (this s) = true -> handles_or_nothing (this s') = true.

(** What [create] answers: the page [newPage] resolved with, [undefined]
    when it rejected. *)
Definition minted (r : result value) : value :=
  match r with Ok page => page | Err _ => VUndefined end.

Definition is_new_page (e : event) : bool :=
  match e with NewPage _ => true | _ => false end.

Definition is_page_status (e : event) : bool :=
  match e with IsClosed _ | ClosePage _ => true | _ => false end.





Definition is_borrow (e : event) : bool :=
  match e with PoolAcquire _ | PoolRelease _ _ => true | _ => false end.

(** The events each operation may log. *)
Definition create_event (e : event) : bool :=
  is_new_page e || is_call e || is_debug e.

Definition validate_event (e : event) : bool := is_call e || is_debug e.

Definition destroy_page_event (e : event) : bool :=
  is_call e || is_page_status e || is_debug e.


Definition process_event (e : event) : bool :=
  is_borrow e || is_call e || is_debug e.


(** The diagnostics of a successful launch, which part_000 words
    differently and fills with the options used. *)
Definition browser_created (rev : revision) (puppeteerOptions : value) : event :=
  match rev with
  | IndexJs => Debug "browser is created" []
  | Part000 => Debug "browser is created with: %j" [puppeteerOptions]
  end.


(** A primitive value: a property cannot be created on it. *)
Definition is_primitive (v : value) : bool :=
  match v with
  | VUndefined | VNull | VBool _ | VNum _ | VNaN | VStr _ => true
  | _ => false
  end.

(** Collaborators that answer with what their contract promises:
    [createPool] with a pool or nothing, a browser launch that succeeds
    with a browser. *)
Definition typed_env (env : Env) : Prop :=
  (forall o w,
      match createPool env o w with
      | VNull | VUndefined | VPool _ => True
      | _ => False
      end)
  /\ (forall l o w v w',
         puppeteer_launch env l o w = (Ok v, w') -> exists b, v = VBrowser b).

(** ** Proof tools *)

Ltac js :=
  cbv beta iota zeta delta
    [bind ret throw try_catch emit get_this set_this external debug destructure
     Helpers.call Helpers.debug_part000 Helpers.newPage_or_report
     isClosed close_page
     Helpers.poolFactory.create Helpers.poolFactory.destroy
     Helpers.poolFactory.validate
     Pool.on Pool.drain Pool.clear Pool.release Pool.acquire Pool.use
     PagePool.close_browser PagePool.destroy PagePool.process
     PagePool.handler_callback PagePool.set_browser PagePool.set_pool
     PagePool.create_pool PagePool.launch_browser PagePool.write_back];
  cbn [log wld this browser options pool closed ticks is_absent get_prop
       or_default negb fst snd].

Ltac js_done :=
  js; cbn [app]; repeat rewrite <- app_assoc; cbn [app]; reflexivity.

Lemma is_function_VFunction : forall f, is_function (VFunction f) = true.
Proof. reflexivity. Qed.

Lemma is_function_inv :
  forall v, is_function v = true -> exists f, v = VFunction f.
Proof.
  intros v H. destruct v; try discriminate H. eexists. reflexivity.
Qed.

Lemma is_function_or_default :
  forall v, is_function (or_default v VNull) = is_function v.
Proof. intros v. destruct v; reflexivity. Qed.

Lemma or_default_VFunction :
  forall f d, or_default (VFunction f) d = VFunction f.
Proof. reflexivity. Qed.

(** ** The factory *)

(** C3: when minting the page fails, [create] answers [undefined], an absent
    value, and does not throw; when minting succeeds and the configured
    [onPageCreated] hook throws or rejects, [create] still answers the page
    and emits one diagnostic for the hook error (after "page is created"). *)
Theorem C3_create_isolates_failures :
  forall env rev s b opts,
    browser (this s) = VBrowser b ->
    options (this s) = VObject opts ->
    (forall ex w,
        browser_newPage env b (wld s) = (Err ex, w) ->
        exists s',
          Helpers.poolFactory.create env rev s = (Ok VUndefined, s')
          /\ is_absent VUndefined = true)
    /\
    (forall page w f ex w',
        browser_newPage env b (wld s) = (Ok page, w) ->
        to_boolean page = true ->
        lookup "onPageCreated" opts = VFunction f ->
        apply env f (Some (this s)) [page] w = (Err ex, w') ->
        exists evs,
          Helpers.poolFactory.create env rev s =
            (Ok page, {| log := log s ++ evs; wld := w'; this := this s |})
          /\ evs = [NewPage b; Debug "page is created" [];
                    Call f (Some (this s)) [page];
                    Debug "onPageCreated error: %s" [ex]]
          /\ occurrences (debug_is "onPageCreated error: %s") evs = 1).
Proof.
  intros env rev s b opts Hb Ho. split.
  - intros ex w Hn. eexists. split; [|reflexivity].
    js. rewrite Ho, Hb. js. rewrite Hn. js. reflexivity.
  - intros page w f ex w' Hn Hp Hf Ha. eexists. split; [|split; reflexivity].
    js. rewrite Ho, Hb. js. rewrite Hf, Hn. js. rewrite Hp.
    rewrite is_function_VFunction. js. rewrite Ha. js_done.
Qed.

Lemma C3_create_isolates_failures_witness :
  (exists s',
      Helpers.poolFactory.create Sample.env IndexJs
        (Sample.fresh {| browser := VBrowser 1; options := VObject [];
                         pool := VPool 0 |}) = (Ok VUndefined, s'))
  /\ (exists s',
      Helpers.poolFactory.create Sample.env Part000
        (Sample.launched [("onPageCreated", VFunction 1)]) = (Ok (VPage 0), s')).
Proof.
  split.
  - destruct (C3_create_isolates_failures Sample.env IndexJs
                (Sample.fresh {| browser := VBrowser 1; options := VObject [];
                                 pool := VPool 0 |}) 1 []
                eq_refl eq_refl) as [H _].
    destruct (H Sample.boom Sample.calm eq_refl) as [s' [E _]].
    exists s'. exact E.
  - destruct (C3_create_isolates_failures Sample.env Part000
                (Sample.launched [("onPageCreated", VFunction 1)]) 0
                [("onPageCreated", VFunction 1)] eq_refl eq_refl) as [_ H].
    destruct (H (VPage 0) Sample.calm 1 Sample.boom Sample.calm
                eq_refl eq_refl eq_refl eq_refl) as [evs [E _]].
    eexists. exact E.
Defined.

(** C4: [validate] answers [false] for an absent page, [true] for a present
    page when no [onValidate] function is configured, and [false] for a
    present page whose [onValidate] hook throws or rejects. *)
Theorem C4_validate_eligibility :
  forall env rev s page opts,
    options (this s) = VObject opts ->
    (to_boolean page = false ->
     Helpers.poolFactory.validate env rev page s = (Ok (VBool false), s))
    /\
    (to_boolean page = true ->
     is_function (lookup "onValidate" opts) = false ->
     Helpers.poolFactory.validate env rev page s = (Ok (VBool true), s))
    /\
    (forall f ex w',
        to_boolean page = true ->
        lookup "onValidate" opts = VFunction f ->
        apply env f (Some (this s)) [page] (wld s) = (Err ex, w') ->
        Helpers.poolFactory.validate env rev page s =
          (Ok (VBool false),
           {| log := log s ++ [Call f (Some (this s)) [page];
                               Debug "onValidate error: %s" [ex]];
              wld := w'; this := this s |})).
Proof.
  intros env rev s page opts Ho. repeat split.
  - intros Hp. js. rewrite Ho. js. rewrite Hp. reflexivity.
  - intros Hp Hf. js. rewrite Ho. js. rewrite Hp.
    rewrite is_function_or_default, Hf. reflexivity.
  - intros f ex w' Hp Hf Ha. js. rewrite Ho. js. rewrite Hp, Hf.
    rewrite or_default_VFunction, is_function_VFunction. js. rewrite Ha. js_done.
Qed.

Lemma C4_validate_eligibility_witness :
  Helpers.poolFactory.validate Sample.env IndexJs VUndefined (Sample.launched [])
    = (Ok (VBool false), Sample.launched [])
  /\ Helpers.poolFactory.validate Sample.env IndexJs (VPage 0) (Sample.launched [])
    = (Ok (VBool true), Sample.launched [])
  /\ fst (Helpers.poolFactory.validate Sample.env Part000 (VPage 0)
            (Sample.launched [("onValidate", VFunction 1)]))
    = Ok (VBool false).
Proof.
  split; [|split].
  - apply (C4_validate_eligibility Sample.env IndexJs (Sample.launched [])
             VUndefined [] eq_refl); reflexivity.
  - apply (C4_validate_eligibility Sample.env IndexJs (Sample.launched [])
             (VPage 0) [] eq_refl); reflexivity.
  - rewrite (proj2 (proj2 (C4_validate_eligibility Sample.env Part000
               (Sample.launched [("onValidate", VFunction 1)]) (VPage 0)
               [("onValidate", VFunction 1)] eq_refl))
               1 Sample.boom Sample.calm eq_refl eq_refl eq_refl).
    reflexivity.
Defined.

(** C5, as stated, fails: a hook that completes with the number 1 makes
    [validate] answer the number 1, which is not a boolean; the coerced
    answer would have been [true]. *)
Lemma C5_validate_not_coerced_counterexample :
  fst (Helpers.poolFactory.validate Sample.env IndexJs (VPage 0)
         (Sample.launched [("onValidate", VFunction 2)])) = Ok (VNum 1)
  /\ fst (Helpers.poolFactory.validate Sample.env Part000 (VPage 0)
         (Sample.launched [("onValidate", VFunction 2)])) = Ok (VNum 1)
  /\ is_boolean (VNum 1) = false
  /\ coerced (VNum 1) = VBool true.
Proof. repeat split. Qed.

(** C5, amended: [validate] always answers, never throws.  The answer is
    the boolean [false] for an absent page and for a failed [onValidate]
    hook, the boolean [true] for a present page without a hook, and the
    hook's own result, as it is and without coercion, when an [onValidate]
    hook is configured and completes.  So the answer is a boolean exactly
    when the hook's result is one. *)
Theorem C5_validate_answers_hook_result :
  forall env rev s page opts,
    options (this s) = VObject opts ->
    exists v s',
      Helpers.poolFactory.validate env rev page s = (Ok v, s')
      /\ (to_boolean page = false -> v = VBool false)
      /\ (to_boolean page = true ->
          is_function (lookup "onValidate" opts) = false ->
          v = VBool true)
      /\ (forall f ex w',
             to_boolean page = true ->
             lookup "onValidate" opts = VFunction f ->
             apply env f (Some (this s)) [page] (wld s) = (Err ex, w') ->
             v = VBool false)
      /\ (forall f r w',
             to_boolean page = true ->
             lookup "onValidate" opts = VFunction f ->
             apply env f (Some (this s)) [page] (wld s) = (Ok r, w') ->
             v = r /\ is_boolean v = is_boolean r).
Proof.
  intros env rev s page opts Ho.
  destruct (to_boolean page) eqn:Hp.
  - destruct (is_function (lookup "onValidate" opts)) eqn:Hf.
    + destruct (is_function_inv _ Hf) as [f Ef].
      destruct (apply env f (Some (this s)) [page] (wld s)) as [[r|ex] w'] eqn:Ha.
      * assert (exists s',
                   Helpers.poolFactory.validate env rev page s = (Ok r, s'))
          as [s' E].
        { destruct rev; eexists; js; rewrite Ho; js; rewrite Hp, Ef;
            rewrite or_default_VFunction, is_function_VFunction; js;
            rewrite Ha; js; reflexivity. }
        exists r, s'. split; [exact E|]. split; [|split; [|split]].
        -- intros H. discriminate H.
        -- intros _ H. discriminate H.
        -- intros f0 ex w0 _ Ef0 Ha0. rewrite Ef in Ef0.
           injection Ef0 as <-. rewrite Ha in Ha0. discriminate Ha0.
        -- intros f0 r0 w0 _ Ef0 Ha0. rewrite Ef in Ef0.
           injection Ef0 as <-. rewrite Ha in Ha0.
           injection Ha0 as <- _. split; reflexivity.
      * exists (VBool false). eexists. split; [|split; [|split; [|split]]].
        -- js. rewrite Ho. js. rewrite Hp, Ef.
           rewrite or_default_VFunction, is_function_VFunction. js. rewrite Ha.
           js. reflexivity.
        -- reflexivity.
        -- intros _ H. discriminate H.
        -- reflexivity.
        -- intros f0 r0 w0 _ Ef0 Ha0. rewrite Ef in Ef0.
           injection Ef0 as <-. rewrite Ha in Ha0. discriminate Ha0.
    + exists (VBool true), s. split; [|split; [|split; [|split]]].
      * js. rewrite Ho. js. rewrite Hp, is_function_or_default, Hf. reflexivity.
      * intros H. discriminate H.
      * reflexivity.
      * intros f ex w' _ Ef _. rewrite Ef in Hf. discriminate Hf.
      * intros f r w' _ Ef _. rewrite Ef in Hf. discriminate Hf.
  - exists (VBool false), s. split; [|split; [|split; [|split]]].
    + js. rewrite Ho. js. rewrite Hp. reflexivity.
    + reflexivity.
    + intros H. discriminate H.
    + reflexivity.
    + intros f r w' H. discriminate H.
Qed.

Lemma C5_validate_answers_hook_result_witness :
  (exists v s',
      Helpers.poolFactory.validate Sample.env IndexJs (VPage 0)
        (Sample.launched [("onValidate", VFunction 2)]) = (Ok v, s')
      /\ v = VNum 1 /\ is_boolean v = false)
  /\ (exists v s',
      Helpers.poolFactory.validate Sample.env Part000 (VPage 0)
        (Sample.launched [("onValidate", VFunction 1)]) = (Ok v, s')
      /\ v = VBool false)
  /\ (exists v s',
      Helpers.poolFactory.validate Sample.env IndexJs (VPage 0)
        (Sample.launched []) = (Ok v, s')
      /\ v = VBool true)
  /\ (exists v s',
      Helpers.poolFactory.validate Sample.env IndexJs VNull
        (Sample.launched [("onValidate", VFunction 2)]) = (Ok v, s')
      /\ v = VBool false).
Proof.
  split; [|split; [|split]].
  - destruct (C5_validate_answers_hook_result Sample.env IndexJs
                (Sample.launched [("onValidate", VFunction 2)]) (VPage 0)
                [("onValidate", VFunction 2)] eq_refl)
      as [v [s' [E [_ [_ [_ Hr]]]]]].
    exists v, s'. split; [exact E|].
    destruct (Hr 2 (VNum 1) Sample.calm eq_refl eq_refl eq_refl) as [Hv Hb].
    split; [exact Hv | exact Hb].
  - destruct (C5_validate_answers_hook_result Sample.env Part000
                (Sample.launched [("onValidate", VFunction 1)]) (VPage 0)
                [("onValidate", VFunction 1)] eq_refl)
      as [v [s' [E [_ [_ [He _]]]]]].
    exists v, s'. split; [exact E|].
    exact (He 1 Sample.boom Sample.calm eq_refl eq_refl eq_refl).
  - destruct (C5_validate_answers_hook_result Sample.env IndexJs
                (Sample.launched []) (VPage 0) [] eq_refl)
      as [v [s' [E [_ [Hn _]]]]].
    exists v, s'. split; [exact E|]. exact (Hn eq_refl eq_refl).
  - destruct (C5_validate_answers_hook_result Sample.env IndexJs
                (Sample.launched [("onValidate", VFunction 2)]) VNull
                [("onValidate", VFunction 2)] eq_refl)
      as [v [s' [E [Ha _]]]].
    exists v, s'. split; [exact E|]. exact (Ha eq_refl).
Defined.

(** C6: [destroy] does nothing at all for an absent page.  For a present page
    it calls the destroy hook first (when one is configured), reports a hook
    failure without propagating it, asks the page whether it is closed and
    closes it only if it is not, and, the close once completed, ends with
    the "page is destroyed" diagnostic whatever the hook did. *)
Theorem C6_destroy_page :
  forall env rev s opts,
    options (this s) = VObject opts ->
    (forall page,
        to_boolean page = false ->
        Helpers.poolFactory.destroy env rev page s = (Ok VUndefined, s))
    /\
    (forall p,
        is_function (lookup (destroy_hook_name rev) opts) = false ->
        close_completes env p (wld s) ->
        Helpers.poolFactory.destroy env rev (VPage p) s =
          (Ok VUndefined,
           {| log := log s ++ close_if_open p (wld s)
                           ++ [Debug "page is destroyed" []];
              wld := world_after_close env p (wld s);
              this := this s |}))
    /\
    (forall p f r w',
        lookup (destroy_hook_name rev) opts = VFunction f ->
        apply env f (Some (this s)) [VPage p] (wld s) = (r, w') ->
        close_completes env p w' ->
        Helpers.poolFactory.destroy env rev (VPage p) s =
          (Ok VUndefined,
           {| log := log s ++ Call f (Some (this s)) [VPage p]
                           :: hook_report rev r
                           ++ close_if_open p w'
                           ++ [Debug "page is destroyed" []];
              wld := world_after_close env p w';
              this := this s |})).
Proof.
  intros env rev s opts Ho. split; [|split].
  - intros page Hp. js. rewrite Ho. js. rewrite Hp. destruct s; reflexivity.
  - intros p Hf Hc. js. rewrite Ho. js. rewrite is_function_or_default, Hf.
    cbn [to_boolean]. js. unfold close_if_open, world_after_close.
    destruct Hc as [Hc | [v Hc]].
    + rewrite Hc. js_done.
    + destruct (existsb (Nat.eqb p) (closed (wld s))); [js_done|].
      destruct (page_close env p (wld s)) as [c w1] eqn:Hpc. cbn [fst] in Hc.
      subst c. js. rewrite Hpc. js_done.
  - intros p f r w' Hf Ha Hc. js. rewrite Ho. js. rewrite Hf.
    rewrite or_default_VFunction, is_function_VFunction.
    cbn [to_boolean]. js. rewrite Ha.
    unfold close_if_open, world_after_close, hook_report.
    destruct Hc as [Hc | [v Hc]].
    + rewrite Hc. destruct r as [v|ex]; [destruct rev|]; js; rewrite Hc;
        js_done.
    + destruct (existsb (Nat.eqb p) (closed w')) eqn:Hcl;
        destruct (page_close env p w') as [c w1] eqn:Hpc; cbn [fst] in Hc;
        subst c;
        destruct r as [v0|ex]; [destruct rev| |destruct rev|]; js;
        rewrite Hcl; js; rewrite ?Hpc; js_done.
Qed.

Lemma C6_destroy_page_witness :
  Helpers.poolFactory.destroy Sample.env IndexJs VNull (Sample.launched [])
    = (Ok VUndefined, Sample.launched [])
  /\ log (snd (Helpers.poolFactory.destroy Sample.env IndexJs (VPage 0)
                 (Sample.launched [])))
     = [IsClosed 0; ClosePage 0; Debug "page is destroyed" []]
  /\ log (snd (Helpers.poolFactory.destroy Sample.env IndexJs (VPage 0)
                 (Sample.launched [("onBeforePageDestroy", VFunction 1)])))
     = [Call 1 (Some (this (Sample.launched
                              [("onBeforePageDestroy", VFunction 1)])))
             [VPage 0];
        Debug "onBeforePageDestroy error: %s" [Sample.boom];
        IsClosed 0; ClosePage 0; Debug "page is destroyed" []]
  /\ log (snd (Helpers.poolFactory.destroy Sample.env Part000 (VPage 0)
                 (Sample.launched [("onPageDestroy", VFunction 3)])))
     = [Call 3 (Some (this (Sample.launched [("onPageDestroy", VFunction 3)])))
             [VPage 0];
        Debug "onPageDestroy done" [];
        IsClosed 0; Debug "page is destroyed" []].
Proof.
  split; [|split; [|split]].
  - apply (C6_destroy_page Sample.env IndexJs (Sample.launched []) []
             eq_refl); reflexivity.
  - rewrite (proj1 (proj2 (C6_destroy_page Sample.env IndexJs
               (Sample.launched []) [] eq_refl)) 0 eq_refl
               (or_intror (ex_intro _ VUndefined eq_refl))).
    reflexivity.
  - rewrite (proj2 (proj2 (C6_destroy_page Sample.env IndexJs
               (Sample.launched [("onBeforePageDestroy", VFunction 1)])
               [("onBeforePageDestroy", VFunction 1)] eq_refl))
               0 1 (Err Sample.boom) Sample.calm eq_refl eq_refl
               (or_intror (ex_intro _ VUndefined eq_refl))).
    reflexivity.
  - rewrite (proj2 (proj2 (C6_destroy_page Sample.env Part000
               (Sample.launched [("onPageDestroy", VFunction 3)])
               [("onPageDestroy", VFunction 3)] eq_refl))
               0 3 (Ok VUndefined)
               {| closed := [0]; ticks := 0 |} eq_refl eq_refl
               (or_introl eq_refl)).
    reflexivity.
Defined.

(** ** The class *)

(** C10: whatever the argument, the constructed instance has no browser and
    no pool, and its options are a non-null, non-array object: the argument
    itself when it is one, the empty object otherwise. *)
Theorem C10_constructor_options :
  forall arg,
    browser (PagePool.constructor arg) = VNull
    /\ pool (PagePool.constructor arg) = VNull
    /\ is_plain_object (options (PagePool.constructor arg)) = true
    /\ options (PagePool.constructor arg)
       = if is_plain_object arg then arg else VObject [].
Proof.
  intros arg. destruct arg; repeat split.
Qed.




(** C7: when the pool is missing, or the handler is not a function,
    [process] emits one diagnostic (the one about the pool if it is
    missing, whatever the handler), does not throw, performs no pool
    operation and leaves the instance and the world as they were. *)
Theorem C7_process_misuse :
  forall env s handler args,
    to_boolean (pool (this s)) = false \/ is_function handler = false ->
    exists evs,
      PagePool.process env handler args s =
        (Ok VUndefined, {| log := log s ++ evs; wld := wld s; this := this s |})
      /\ evs = [Debug (if to_boolean (pool (this s))
                       then "handler is not a function"
                       else "pool is not found. Did you forgot to call launch() method?")
                      []]
      /\ occurrences is_debug evs = 1
      /\ occurrences is_pool_op evs = 0
      /\ occurrences is_call evs = 0.
Proof.
  intros env s handler args H. eexists. split; [|repeat split].
  js. destruct (to_boolean (pool (this s))) eqn:Hp.
  - destruct H as [H|H]; [discriminate H|]. rewrite H. js_done.
  - js_done.
Qed.

Lemma C7_process_misuse_witness :
  (exists evs,
      PagePool.process Sample.env (VFunction 0) [] Sample.created =
        (Ok VUndefined,
         {| log := evs; wld := Sample.calm; this := this Sample.created |})
      /\ evs = [Debug "pool is not found. Did you forgot to call launch() method?" []])
  /\ (exists evs,
      PagePool.process Sample.env VUndefined [] (Sample.launched []) =
        (Ok VUndefined,
         {| log := evs; wld := Sample.calm; this := this (Sample.launched []) |})
      /\ evs = [Debug "handler is not a function" []]).
Proof.
  split.
  - destruct (C7_process_misuse Sample.env Sample.created (VFunction 0) []
                (or_introl eq_refl)) as [evs [E [Hevs _]]].
    exists evs. split; [exact E | exact Hevs].
  - destruct (C7_process_misuse Sample.env (Sample.launched []) VUndefined []
                (or_intror eq_refl)) as [evs [E [Hevs _]]].
    exists evs. split; [exact E | exact Hevs].
Defined.

(** C1: on a launched instance, with a handler that is a function and a
    pool that hands out a page, [process] calls the handler once, on the
    page, then the given arguments in order, then the pool handle; the page
    is released after the call whether the handler completed or failed; a
    failure of the handler is logged as a diagnostic and [process] itself
    completes. *)
Theorem C1_process_borrows_uses_releases :
  forall env s k f args page w1 r w2,
    pool (this s) = VPool k ->
    pool_acquire env k (wld s) = (Ok page, w1) ->
    apply env f None (page :: args ++ [VPool k]) w1 = (r, w2) ->
    exists evs,
      PagePool.process env (VFunction f) args s =
        (Ok VUndefined, {| log := log s ++ evs; wld := w2; this := this s |})
      /\ evs = ([PoolAcquire k;
                 Call f None (page :: args ++ [VPool k]);
                 PoolRelease k page]
                ++ match r with
                   | Ok _ => []
                   | Err ex => [Debug "process error: %s" [ex]]
                   end)%list
      /\ occurrences is_call evs = 1.
Proof.
  intros env s k f args page w1 r w2 Hk Hq Ha.
  eexists. split; [|split; [reflexivity|]].
  - js. rewrite Hk. cbn [to_boolean]. js. rewrite is_function_VFunction. js.
    rewrite Hq. js. rewrite Hk, Ha. destruct r as [v|ex]; js_done.
  - destruct r; reflexivity.
Qed.

Lemma C1_process_borrows_uses_releases_witness :
  log (snd (PagePool.process Sample.env (VFunction 0) [VStr "a"; VStr "b"]
              (Sample.launched [])))
    = [PoolAcquire 0;
       Call 0 None [VPage 0; VStr "a"; VStr "b"; VPool 0];
       PoolRelease 0 (VPage 0)]
  /\ PagePool.process Sample.env (VFunction 1) [VStr "a"] (Sample.launched [])
    = (Ok VUndefined,
       {| log := [PoolAcquire 0;
                  Call 1 None [VPage 0; VStr "a"; VPool 0];
                  PoolRelease 0 (VPage 0);
                  Debug "process error: %s" [Sample.boom]];
          wld := Sample.calm;
          this := this (Sample.launched []) |}).
Proof.
  split.
  - destruct (C1_process_borrows_uses_releases Sample.env (Sample.launched [])
                0 0 [VStr "a"; VStr "b"] (VPage 0) Sample.calm
                (Ok VUndefined) Sample.calm eq_refl eq_refl eq_refl)
      as [evs [E [Hevs _]]].
    rewrite E, Hevs. reflexivity.
  - destruct (C1_process_borrows_uses_releases Sample.env (Sample.launched [])
                0 1 [VStr "a"] (VPage 0) Sample.calm
                (Err Sample.boom) Sample.calm eq_refl eq_refl eq_refl)
      as [evs [E [Hevs _]]].
    rewrite E, Hevs. reflexivity.
Defined.

(** In src/index.js a browser launch that fails is the failure of [launch]
    itself: nothing is logged, the pool is not constructed. *)
Lemma launch_failure_propagates_index_js :
  forall env s opts l po ex w,
    options (this s) = VObject opts ->
    or_default (lookup "puppeteer" opts) defaultPuppeteer = VPuppeteer l ->
    or_default (lookup "puppeteerOptions" opts) (VObject []) = VObject po ->
    puppeteer_launch env l (launch_options IndexJs po) (wld s) = (Err ex, w) ->
    exists s',
      PagePool.launch env IndexJs s = (Err ex, s')
      /\ log s' = (log s ++ [Launch l (launch_options IndexJs po)])%list
      /\ pool (this s') = pool (this s)
      /\ browser (this s') = browser (this s).
Proof.
  intros env s opts l po ex w Ho Hl Hpo Hx.
  unfold PagePool.launch, PagePool.assign_args.
  js. rewrite Ho. js. rewrite Hl, Hpo. js. rewrite Ho. js.
  unfold launch_options in *.
  destruct (lookup "puppeteerOptions" opts); js; rewrite Hx;
    (eexists; split; [reflexivity | repeat split; reflexivity]).
Qed.

(** In part_000 the failure is caught: [launch] completes, two diagnostics
    are emitted, no pool is constructed, and every later [process] reports
    the missing pool and does nothing else. *)
Lemma launch_failure_reported_part000 :
  forall env s opts l po ex w,
    options (this s) = VObject opts ->
    pool (this s) = VNull ->
    or_default (lookup "puppeteer" opts) defaultPuppeteer = VPuppeteer l ->
    or_default (lookup "puppeteerOptions" opts) (VObject []) = VObject po ->
    puppeteer_launch env l (launch_options Part000 po) (wld s) = (Err ex, w) ->
    exists s',
      PagePool.launch env Part000 s = (Ok VUndefined, s')
      /\ log s' = (log s ++ [Launch l (launch_options Part000 po);
                             Debug "browser create error: %s" [ex];
                             Debug "pool is not created" []])%list
      /\ pool (this s') = VNull
      /\ occurrences is_pool_op (log s') = occurrences is_pool_op (log s)
      /\ forall handler args,
           PagePool.process env handler args s' =
             (Ok VUndefined,
              {| log := log s' ++
                   [Debug "pool is not found. Did you forgot to call launch() method?" []];
                 wld := wld s'; this := this s' |}).
Proof.
  intros env s opts l po ex w Ho Hk Hl Hpo Hx.
  assert (exists s',
             PagePool.launch env Part000 s = (Ok VUndefined, s')
             /\ log s' = (log s ++ [Launch l (launch_options Part000 po);
                                    Debug "browser create error: %s" [ex];
                                    Debug "pool is not created" []])%list
             /\ pool (this s') = VNull) as [s' [E [Hlog Hpool]]].
  { unfold PagePool.launch, PagePool.assign_args.
    js. rewrite Ho. js. rewrite Hl, Hpo. js. rewrite Ho. js.
    unfold launch_options in Hx.
    destruct (lookup "puppeteerOptions" opts); js; rewrite Hx; js;
      cbn [to_boolean]; js; rewrite Hk; cbn [to_boolean]; js;
      (eexists; split; [reflexivity|split; [js_done|first [exact Hk | reflexivity]]]). }
  exists s'. split; [exact E|]. split; [exact Hlog|]. split; [exact Hpool|].
  split.
  - rewrite Hlog. unfold occurrences. rewrite filter_app, length_app.
    cbn. lia.
  - intros handler args. js. rewrite Hpool. cbn [to_boolean]. js_done.
Qed.

(** C2 fails on src/index.js: with a puppeteer library that cannot launch a
    browser, [launch] on a freshly constructed instance throws the launch
    error to its caller and emits no diagnostic.  (The pool stays [null],
    and a later [process] does report its absence.) *)
Theorem C2_launch_failure_escapes_index_js :
  fst (PagePool.launch Sample.offline IndexJs Sample.created) = Err Sample.boom
  /\ diagnostics (log (snd (PagePool.launch Sample.offline IndexJs Sample.created)))
     = []
  /\ pool (this (snd (PagePool.launch Sample.offline IndexJs Sample.created)))
     = VNull
  /\ diagnostics
       (log (snd (PagePool.process Sample.offline (VFunction 0) []
                    (snd (PagePool.launch Sample.offline IndexJs Sample.created)))))
     = [Debug "pool is not found. Did you forgot to call launch() method?" []].
Proof. repeat split. Qed.

(** The same input on part_000: [launch] completes and reports. *)
Example launch_failure_part000_sample :
  fst (PagePool.launch Sample.offline Part000 Sample.created) = Ok VUndefined
  /\ diagnostics (log (snd (PagePool.launch Sample.offline Part000 Sample.created)))
     = [Debug "browser create error: %s" [Sample.boom];
        Debug "pool is not created" []]
  /\ pool (this (snd (PagePool.launch Sample.offline Part000 Sample.created)))
     = VNull.
Proof. repeat split. Qed.

(** ** The Pool Engine's bound *)

Section EngineFacts.

Import Engine.

Variable creates : nat -> bool.
Variable validates : nat -> nat -> bool.

Lemma remove_first_length :
  forall r l,
    existsb (Nat.eqb r) l = true ->
    S (List.length (remove_first r l)) = List.length l.
Proof.
  intros r l. induction l as [|x rest IH]; intros H.
  - discriminate H.
  - cbn [remove_first]. cbn [existsb] in H.
    destruct (Nat.eqb x r) eqn:E.
    + reflexivity.
    + rewrite Nat.eqb_sym, E in H. cbn [orb] in H.
      cbn [List.length]. rewrite (IH H). reflexivity.
Qed.

Lemma existsb_In_eqb :
  forall r l, In r l -> existsb (Nat.eqb r) l = true.
Proof.
  intros r l H. apply existsb_exists. exists r. split; [exact H|].
  apply Nat.eqb_refl.
Qed.

Lemma mint_and_lend_within :
  forall st,
    draining st = false ->
    List.length (idle st) + List.length (borrowed st) < max st ->
    within_capacity (fst (mint_and_lend creates st)).
Proof.
  intros st Hd H. unfold mint_and_lend, within_capacity.
  destruct (creates (clock st)); cbn; split; try exact Hd; lia.
Qed.

Lemma mint_and_lend_not_queued :
  forall st, snd (mint_and_lend creates st) <> Queued.
Proof.
  intros st. unfold mint_and_lend.
  destruct (creates (clock st)); cbn; discriminate.
Qed.

Lemma mint_and_lend_frame :
  forall st,
    max (fst (mint_and_lend creates st)) = max st
    /\ waiting (fst (mint_and_lend creates st)) = waiting st.
Proof.
  intros st. unfold mint_and_lend.
  destruct (creates (clock st)); split; reflexivity.
Qed.

Lemma dispense_within :
  forall st,
    within_capacity st ->
    within_capacity (fst (dispense creates validates st)).
Proof.
  intros st [Hd H]. unfold dispense.
  destruct (idle st) as [|r rest] eqn:Ei.
  - cbn [List.length] in *.
    destruct (Nat.ltb_spec (0 + List.length (borrowed st)) (max st)) as [Hlt|Hge].
    + apply mint_and_lend_within; [exact Hd|]. rewrite Ei. exact Hlt.
    + split; [exact Hd|]. cbn [fst]. rewrite Ei. exact H.
  - cbn [List.length] in H.
    destruct (validates (clock st) r).
    + split; cbn; [exact Hd | lia].
    + apply mint_and_lend_within; cbn; [exact Hd | lia].
Qed.

Lemma dispense_frame :
  forall st,
    max (fst (dispense creates validates st)) = max st
    /\ waiting (fst (dispense creates validates st)) = waiting st.
Proof.
  intros st. unfold dispense.
  destruct (idle st) as [|r rest].
  - destruct (Nat.ltb _ _); [apply mint_and_lend_frame | split; reflexivity].
  - destruct (validates (clock st) r); [split; reflexivity|].
    exact (mint_and_lend_frame _).
Qed.

Lemma dispense_idle_not_queued :
  forall st,
    idle st <> [] -> snd (dispense creates validates st) <> Queued.
Proof.
  intros st H. unfold dispense.
  destruct (idle st) as [|r rest]; [contradiction|].
  destruct (validates (clock st) r); [cbn; discriminate|].
  apply mint_and_lend_not_queued.
Qed.

Lemma step_within :
  forall st o,
    within_capacity st ->
    within_capacity (fst (step creates validates st o))
    /\ max (fst (step creates validates st o)) = max st.
Proof.
  intros st o Hst. destruct o as [req|r]; cbn [step].
  - unfold acquire. destruct Hst as [Hd H]. rewrite Hd.
    pose proof (dispense_within st (conj Hd H)) as Hw.
    pose proof (dispense_frame st) as [Hm _].
    destruct (dispense creates validates st) as [st' a].
    cbn [fst] in *. destruct a; cbn [fst]; split; assumption.
  - unfold release.
    destruct (existsb (Nat.eqb r) (borrowed st)) eqn:Eb;
      [|split; [exact Hst | reflexivity]].
    destruct Hst as [Hd H]. rewrite Hd.
    pose proof (remove_first_length r (borrowed st) Eb) as Hr.
    unfold serve_waiting. cbn [waiting].
    destruct (waiting st) as [|req rest].
    + cbn [fst]. split; [|reflexivity]. split; cbn; [first [exact Hd | reflexivity]|].
      rewrite length_app. cbn [List.length]. lia.
    + match goal with
      | |- context [dispense creates validates ?x] =>
          assert (within_capacity x) as Hx
      end.
      { split; cbn; [first [exact Hd | reflexivity]|]. rewrite length_app. cbn [List.length]. lia. }
      apply dispense_within in Hx.
      match goal with
      | |- context [dispense creates validates ?x] =>
          pose proof (dispense_frame x) as [Hm _];
          destruct (dispense creates validates x) as [st' a]
      end.
      cbn [fst max] in *.
      destruct a; cbn [fst]; (split; [|exact Hm]); destruct Hx as [Hd' H'];
        split; cbn; assumption.
Qed.

Lemma run_within :
  forall ops st,
    within_capacity st ->
    within_capacity (run creates validates ops st)
    /\ max (run creates validates ops st) = max st.
Proof.
  induction ops as [|o rest IH]; intros st Hst.
  - split; [exact Hst | reflexivity].
  - cbn [run]. destruct (step_within st o Hst) as [Hw Hm].
    destruct (IH _ Hw) as [Hw' Hm']. split; [exact Hw'|].
    rewrite Hm'. exact Hm.
Qed.

Lemma create_pool_within : forall m, within_capacity (create_pool m).
Proof. intros m. split; cbn; [reflexivity | lia]. Qed.

End EngineFacts.

(** C9: whatever the factory does and whatever the sequence of acquire and
    release operations on a pool created with maximum [m], at most [m]
    pages are on loan.  A request made when [m] pages are on loan is put at
    the end of the queue; when a page on loan is released, the request at
    the head of the queue leaves the queue with its answer. *)
Theorem C9_borrowed_never_exceeds_max :
  forall creates validates m ops,
    let st := Engine.run creates validates ops (Engine.create_pool m) in
    List.length (Engine.borrowed st) <= m
    /\ (forall req,
           List.length (Engine.borrowed st) = m ->
           Engine.acquire creates validates req st
           = (Engine.enqueue req st, [(req, Engine.Queued)]))
    /\ (forall req rest r,
           Engine.waiting st = req :: rest ->
           In r (Engine.borrowed st) ->
           exists a,
             snd (Engine.release creates validates r st) = [(req, a)]
             /\ a <> Engine.Queued
             /\ Engine.waiting (fst (Engine.release creates validates r st))
                = rest).
Proof.
  intros creates validates m ops st.
  destruct (run_within creates validates ops (Engine.create_pool m)
              (create_pool_within m)) as [[Hd H] Hm].
  fold st in Hd, H, Hm. cbn [Engine.max Engine.create_pool] in Hm.
  rewrite Hm in H. split; [lia|]. split.
  - intros req Hfull. unfold Engine.acquire. rewrite Hd.
    unfold Engine.dispense.
    destruct (Engine.idle st) as [|x xs] eqn:Ei.
    + cbn [List.length]. rewrite Hm, Hfull, Nat.ltb_irrefl. reflexivity.
    + cbn [List.length] in H. lia.
  - intros req rest r Hw Hr. unfold Engine.release.
    rewrite (existsb_In_eqb r _ Hr), Hd.
    unfold Engine.serve_waiting. cbn [Engine.waiting]. rewrite Hw.
    match goal with
    | |- context [Engine.dispense creates validates ?x] =>
        pose proof (dispense_idle_not_queued creates validates x) as Hq;
        destruct (Engine.dispense creates validates x) as [st' a]
    end.
    cbn [snd Engine.idle] in Hq.
    assert (a <> Engine.Queued) as Ha.
    { apply Hq. destruct (Engine.idle st); discriminate. }
    exists a. destruct a; try contradiction; cbn; repeat split; discriminate.
Qed.

(** The end-to-end scenario of section 8: maximum 3, five requests at once;
    three are served, two wait, and a release serves the oldest waiter with
    the page just returned. *)
Example engine_five_requests_max_three :
  let always := fun _ : nat => true in
  let valid := fun _ _ : nat => true in
  let st := Engine.run always valid
              [Engine.Acquire 1; Engine.Acquire 2; Engine.Acquire 3;
               Engine.Acquire 4; Engine.Acquire 5]
              (Engine.create_pool 3) in
  Engine.borrowed st = [2; 1; 0]
  /\ Engine.waiting st = [4; 5]
  /\ snd (Engine.release always valid 1 st) = [(4, Engine.Lent 1)]
  /\ Engine.waiting (fst (Engine.release always valid 1 st)) = [5]
  /\ Engine.borrowed (fst (Engine.release always valid 1 st)) = [1; 2; 0].
Proof. repeat split. Qed.

(** When the pool cannot hand out a page, the handler is never called and
    [process] reports the failure instead of throwing it. *)
Lemma process_acquire_failure :
  forall env s k f args ex w1,
    pool (this s) = VPool k ->
    pool_acquire env k (wld s) = (Err ex, w1) ->
    PagePool.process env (VFunction f) args s =
      (Ok VUndefined,
       {| log := log s ++ [PoolAcquire k; Debug "process error: %s" [ex]];
          wld := w1; this := this s |}).
Proof.
  intros env s k f args ex w1 Hk Hq.
  js. rewrite Hk. cbn [to_boolean]. js. rewrite is_function_VFunction. js.
  rewrite Hq. js_done.
Qed.

(** The instances the class builds hold handles or nothing. *)
Lemma constructor_handles_or_nothing :
  forall arg, handles_or_nothing (PagePool.constructor arg) = true.
Proof. reflexivity. Qed.

(** ** What each operation may log, and what it leaves alone *)

Lemma appends_framing : forall P, framing (appends P).
Proof.
  intros P. split.
  - intros s. exists []. rewrite app_nil_r. split; reflexivity.
  - intros s1 s2 s3 [e1 [L1 F1]] [e2 [L2 F2]]. exists (e1 ++ e2)%list.
    rewrite L2, L1, app_assoc, forallb_app, F1, F2. split; reflexivity.
  - intros s w. exists []. cbn. rewrite app_nil_r. split; reflexivity.
Qed.

Lemma same_this_framing : framing same_this.
Proof.
  split.
  - reflexivity.
  - unfold same_this. intros s1 s2 s3 H1 H2. congruence.
  - reflexivity.
Qed.

Lemma same_options_framing : framing same_options.
Proof.
  split.
  - reflexivity.
  - unfold same_options. intros s1 s2 s3 H1 H2. congruence.
  - reflexivity.
Qed.

Create HintDb frames.
#[local] Hint Resolve appends_framing same_this_framing same_options_framing
  : frames.

Section Frames.

Variable R : state -> state -> Prop.
Hypothesis HR : framing R.

Lemma preserves_ret : forall (A : Type) (a : A), preserves R (ret a).
Proof. intros A a s. apply (framing_refl R HR). Qed.

Lemma preserves_throw : forall (A : Type) ex, preserves R (@throw A ex).
Proof. intros A ex s. apply (framing_refl R HR). Qed.

Lemma preserves_get_this : preserves R get_this.
Proof. intros s. apply (framing_refl R HR). Qed.

Lemma preserves_pure :
  forall (A : Type) (f : state -> A), preserves R (fun s => (Ok (f s), s)).
Proof. intros A f s. apply (framing_refl R HR). Qed.

Lemma preserves_external :
  forall (A : Type) (c : world -> result A * world), preserves R (external c).
Proof.
  intros A c s. unfold external. destruct (c (wld s)) as [r w].
  apply (framing_world R HR).
Qed.

Lemma preserves_bind :
  forall (A B : Type) (c : M A) (k : A -> M B),
    preserves R c -> (forall a, preserves R (k a)) -> preserves R (bind c k).
Proof.
  intros A B c k Hc Hk s. unfold bind. specialize (Hc s).
  destruct (c s) as [[a|ex] s1]; cbn [snd] in Hc.
  - apply (framing_trans R HR _ _ _ Hc). apply Hk.
  - exact Hc.
Qed.

Lemma preserves_try_catch :
  forall (A : Type) (c : M A) (h : value -> M A),
    preserves R c -> (forall ex, preserves R (h ex)) ->
    preserves R (try_catch c h).
Proof.
  intros A c h Hc Hh s. unfold try_catch. specialize (Hc s).
  destruct (c s) as [[a|ex] s1]; cbn [snd] in Hc.
  - exact Hc.
  - apply (framing_trans R HR _ _ _ Hc). apply Hh.
Qed.

(** [pool.use(fn)] keeps what the function keeps, if logging the release
    keeps it too. *)
Lemma preserves_use :
  forall env k fn,
    preserves R (emit (PoolAcquire k)) ->
    (forall page, preserves R (emit (PoolRelease k page))) ->
    (forall page, preserves R (fn page)) ->
    preserves R (Pool.use env k fn).
Proof.
  intros env k fn Ha Hr Hfn. unfold Pool.use, Pool.acquire.
  apply preserves_bind.
  - apply preserves_bind; [exact Ha | intros _; apply preserves_external].
  - intros page s. specialize (Hfn page s).
    destruct (fn page s) as [[r|ex] s1]; cbn [snd] in Hfn;
      apply (framing_trans R HR _ _ _ Hfn); apply (Hr page s1).
Qed.

(** The calls of [create] a pool begins with keep what logging a [newPage]
    call keeps. *)
Lemma preserves_begin_creates :
  forall env n,
    (forall b, preserves R (emit (NewPage b))) ->
    preserves R (PagePool.begin_creates env n).
Proof.
  intros env n Hnew. induction n as [|m IH]; cbn [PagePool.begin_creates].
  - apply preserves_ret.
  - apply preserves_bind; [|intros _; exact IH].
    unfold Helpers.begin_create.
    apply preserves_bind; [apply preserves_get_this | intros self].
    apply preserves_try_catch; [|intros _; apply preserves_ret].
    apply preserves_bind.
    + unfold destructure. destruct (is_absent (options self));
        [apply preserves_throw | apply preserves_ret].
    + intros _. destruct (browser self); try apply preserves_throw.
      apply preserves_bind; [apply Hnew | intros _; apply preserves_external].
Qed.

End Frames.

(** The leaves of a frame proof: one event logged, the world or the
    instance updated. *)
Ltac frame_leaf :=
  let s := fresh "s" in
  intros s; cbv beta iota zeta delta [emit set_this close_page isClosed bind
    PagePool.set_browser PagePool.set_pool get_this snd fst];
  first
    [ reflexivity
    | exact (fun H => H)
    | eexists; split; [reflexivity | reflexivity]
    | exists []; cbn; rewrite app_nil_r; split; reflexivity ].

Ltac frame_step :=
  match goal with
  | |- adds _ _ => unfold adds
  | |- keeps_this _ => unfold keeps_this
  | |- keeps_options _ => unfold keeps_options
  | |- preserves _ (bind _ _) =>
      apply preserves_bind; [auto with frames | | intros ?]
  | |- preserves _ (try_catch _ _) =>
      apply preserves_try_catch; [auto with frames | | intros ?]
  | |- preserves _ (Pool.use _ _ _) =>
      apply preserves_use; [auto with frames | | intros ? | intros ?]
  | |- preserves _ (PagePool.begin_creates _ _) =>
      apply preserves_begin_creates; [auto with frames | intros ?]
  | |- preserves _ (ret _) => apply preserves_ret; auto with frames
  | |- preserves _ (throw _) => apply preserves_throw; auto with frames
  | |- preserves _ get_this => apply preserves_get_this; auto with frames
  | |- preserves _ (external _) => apply preserves_external; auto with frames
  | |- preserves _ (fun s => (Ok _, s)) => apply preserves_pure; auto with frames
  | |- preserves _ (emit _) => frame_leaf
  | |- preserves _ (set_this _) => frame_leaf
  | |- preserves _ (PagePool.set_browser _) => frame_leaf
  | |- preserves _ (PagePool.set_pool _) => frame_leaf
  | |- preserves _ (match ?x with _ => _ end) => destruct x
  | |- preserves _ (if ?x then _ else _) => destruct x
  | |- preserves _ _ =>
      progress unfold debug, destructure, isClosed, close_page, Helpers.call,
        Helpers.debug_part000, Helpers.newPage_or_report,
        Pool.on, Pool.drain, Pool.clear, Pool.release, Pool.acquire,
        PagePool.close_browser, PagePool.create_pool, PagePool.launch_browser,
        PagePool.write_back, PagePool.assign_args, PagePool.handler_callback
  | |- preserves _ _ => frame_leaf
  end.

Ltac frame := repeat frame_step.

Lemma create_frame :
  forall env rev,
    adds create_event (Helpers.poolFactory.create env rev)
    /\ keeps_this (Helpers.poolFactory.create env rev).
Proof.
  intros env rev. unfold Helpers.poolFactory.create. split; frame.
Qed.

Lemma validate_frame :
  forall env rev page,
    adds validate_event (Helpers.poolFactory.validate env rev page)
    /\ keeps_this (Helpers.poolFactory.validate env rev page).
Proof.
  intros env rev page. unfold Helpers.poolFactory.validate. split; frame.
Qed.

Lemma destroy_page_frame :
  forall env rev page,
    adds destroy_page_event (Helpers.poolFactory.destroy env rev page)
    /\ keeps_this (Helpers.poolFactory.destroy env rev page).
Proof.
  intros env rev page. unfold Helpers.poolFactory.destroy. split; frame.
Qed.


Lemma process_frame :
  forall env handler args,
    adds process_event (PagePool.process env handler args)
    /\ keeps_this (PagePool.process env handler args).
Proof.
  intros env handler args. unfold PagePool.process. split; frame.
Qed.


(** ** Launching *)

Lemma lookup_store_same :
  forall key v props, lookup key (store key v props) = v.
Proof.
  intros key v props. induction props as [|[k w] rest IH]; cbn.
  - rewrite String.eqb_refl. reflexivity.
  - destruct (String.eqb k key) eqn:E; cbn; rewrite E; [reflexivity | exact IH].
Qed.

Lemma lookup_store_other :
  forall key key' v props,
    key' <> key -> lookup key' (store key v props) = lookup key' props.
Proof.
  intros key key' v props Hne. induction props as [|[k w] rest IH]; cbn.
  - destruct (String.eqb_spec key key') as [E|_]; [congruence | reflexivity].
  - destruct (String.eqb_spec k key) as [E|E]; cbn.
    + subst k. destruct (String.eqb_spec key key') as [E'|_];
        [congruence | reflexivity].
    + destruct (String.eqb k key'); [reflexivity | exact IH].
Qed.

Ltac launch_start Ho Hl Hpo :=
  unfold PagePool.launch, PagePool.assign_args;
  js; rewrite Ho; js; rewrite Hl, Hpo; js; rewrite Ho; js;
  unfold launch_options in *.

(** The pool's first calls of [create], on an instance with options: one
    [newPage] call each, and nothing else. *)
Lemma begin_creates_ok :
  forall env n s opts,
    options (this s) = VObject opts ->
    PagePool.begin_creates env n s =
      (Ok tt,
       {| log := log s ++ page_openings (browser (this s)) n;
          wld := world_after_openings env (browser (this s)) n (wld s);
          this := this s |}).
Proof.
  intros env n. induction n as [|m IH]; intros s opts Ho.
  - cbn [PagePool.begin_creates]. unfold ret, page_openings,
      world_after_openings.
    destruct s as [l w i]. cbn [log wld this].
    destruct (browser i); cbn [repeat world_after_newPages];
      rewrite app_nil_r; reflexivity.
  - cbn [PagePool.begin_creates]. unfold bind at 1.
    assert (Helpers.begin_create env s =
              (Ok tt,
               {| log := log s ++ page_openings (browser (this s)) 1;
                  wld := world_after_openings env (browser (this s)) 1 (wld s);
                  this := this s |})) as E.
    { unfold Helpers.begin_create. js. rewrite Ho. js.
      unfold page_openings, world_after_openings.
      destruct s as [l w [b o p]]. cbn [log wld this browser].
      destruct b; js; cbn [repeat world_after_newPages]; rewrite ?app_nil_r;
        reflexivity. }
    rewrite E. erewrite IH by exact Ho. cbn [log wld this].
    unfold page_openings, world_after_openings.
    destruct (browser (this s)); cbn [repeat world_after_newPages app];
      rewrite ?app_nil_r; try reflexivity.
    rewrite <- app_assoc. reflexivity.
Qed.


(** X2: when [createPool] returns nothing, [launch] still completes: it
    reports "pool is not created", registers no listener, and keeps the
    browser, so that a later [process] reports the missing pool and a later
    [destroy] closes the browser and, the close once completed, resets the
    instance and answers [null]. *)
Theorem launch_without_pool :
  forall env rev s opts l po bv w,
    options (this s) = VObject opts ->
    or_default (lookup "puppeteer" opts) defaultPuppeteer = VPuppeteer l ->
    or_default (lookup "puppeteerOptions" opts) (VObject []) = VObject po ->
    puppeteer_launch env l (launch_options rev po) (wld s) = (Ok bv, w) ->
    to_boolean bv = true ->
    to_boolean
      (createPool env (or_default (lookup "poolOptions" opts) (VObject [])) w)
      = false ->
    exists s',
      PagePool.launch env rev s = (Ok VUndefined, s')
      /\ log s' =
         (log s ++
          [Launch l (launch_options rev po);
           browser_created rev (launch_options rev po);
           CreatePool (or_default (lookup "poolOptions" opts) (VObject []))] ++
          page_openings bv
            (createPool_begins env
               (or_default (lookup "poolOptions" opts) (VObject [])) w) ++
          [Debug "pool is not created" []])%list
      /\ browser (this s') = bv
      /\ (forall handler args,
             PagePool.process env handler args s' =
               (Ok VUndefined,
                {| log := log s' ++
                     [Debug "pool is not found. Did you forgot to call launch() method?" []];
                   wld := wld s'; this := this s' |}))
      /\ (forall b v w',
             bv = VBrowser b ->
             browser_close env b (wld s') = (Ok v, w') ->
             PagePool.destroy env s' =
               (Ok VNull,
                {| log := log s' ++ [CloseBrowser b; Debug "browser is closed" []];
                   wld := w';
                   this := {| browser := VNull; options := VNull;
                              pool := VNull |} |})).
Proof.
  intros env rev s opts l po bv w Ho Hl Hpo Hx Hb Hk.
  assert (exists s',
             PagePool.launch env rev s = (Ok VUndefined, s')
             /\ log s' =
                (log s ++
                 [Launch l (launch_options rev po);
                  browser_created rev (launch_options rev po);
                  CreatePool (or_default (lookup "poolOptions" opts) (VObject []))] ++
                 page_openings bv
                   (createPool_begins env
                      (or_default (lookup "poolOptions" opts) (VObject [])) w) ++
                 [Debug "pool is not created" []])%list
             /\ browser (this s') = bv
             /\ to_boolean (pool (this s')) = false) as [s' [E [Hlog [Hbr Hpl]]]].
  { launch_start Ho Hl Hpo.
    destruct rev;
      destruct (lookup "puppeteerOptions" opts); js; rewrite Hx; js;
      rewrite ?Hb; js;
      (erewrite begin_creates_ok
         by (cbn [this options]; first [reflexivity | exact Ho]));
      js; rewrite Hk; js;
      (eexists; split; [reflexivity | split; [js_done | split; [reflexivity | exact Hk]]]). }
  exists s'. split; [exact E|]. split; [exact Hlog|]. split; [exact Hbr|]. split.
  - intros handler args. js. rewrite Hpl. js_done.
  - intros b v w' Eb Hc. js. rewrite Hpl, Hbr, Eb. cbn [to_boolean]. js.
    rewrite Hc. js_done.
Qed.

Lemma bind_ok :
  forall (A B : Type) (c : M A) (k : A -> M B) s a s1,
    c s = (Ok a, s1) -> bind c k s = k a s1.
Proof. intros A B c k s a s1 H. unfold bind. rewrite H. reflexivity. Qed.

Lemma starts_emit :
  forall (A : Type) e (k : M A),
    adds (fun _ => true) k -> starts e (bind (emit e) (fun _ => k)).
Proof.
  intros A e k Hk s. unfold bind, emit.
  match goal with |- context [k ?x] => destruct (Hk x) as [evs [L _]] end.
  exists evs. rewrite L. cbn. rewrite <- app_assoc. reflexivity.
Qed.

Lemma starts_bind :
  forall (A B : Type) e (c : M A) (k : A -> M B),
    starts e c -> (forall a, adds (fun _ => true) (k a)) -> starts e (bind c k).
Proof.
  intros A B e c k Hc Hk s. unfold bind. destruct (Hc s) as [r1 L1].
  destruct (c s) as [[a|ex] s1]; cbn [snd] in L1.
  - destruct (Hk a s1) as [evs [L _]]. exists (r1 ++ evs)%list.
    rewrite L, L1, <- app_assoc. reflexivity.
  - exists r1. exact L1.
Qed.

Lemma starts_try_catch :
  forall (A : Type) e (c : M A) (h : value -> M A),
    starts e c -> (forall ex, adds (fun _ => true) (h ex)) ->
    starts e (try_catch c h).
Proof.
  intros A e c h Hc Hh s. unfold try_catch. destruct (Hc s) as [r1 L1].
  destruct (c s) as [[a|ex] s1]; cbn [snd] in L1.
  - exists r1. exact L1.
  - destruct (Hh ex s1) as [evs [L _]]. exists (r1 ++ evs)%list.
    rewrite L, L1, <- app_assoc. reflexivity.
Qed.

(** [write_back] completes, and touches nothing but [this.options]. *)
Lemma write_back_ok :
  forall po s,
    exists s1,
      PagePool.write_back po s = (Ok tt, s1)
      /\ log s1 = log s /\ wld s1 = wld s
      /\ browser (this s1) = browser (this s)
      /\ pool (this s1) = pool (this s).
Proof.
  intros po s. unfold PagePool.write_back, bind, get_this, set_this, ret.
  destruct (options (this s)); try (eexists; repeat split; reflexivity).
  destruct (get_prop (VObject props) "puppeteerOptions");
    eexists; repeat split; reflexivity.
Qed.

(** Whatever happens next, a launch that gets as far as the puppeteer
    library calls it with the configured options, [args] filled in. *)
Lemma launch_reaches_puppeteer :
  forall env rev s opts l po,
    options (this s) = VObject opts ->
    or_default (lookup "puppeteer" opts) defaultPuppeteer = VPuppeteer l ->
    or_default (lookup "puppeteerOptions" opts) (VObject []) = VObject po ->
    exists rest,
      log (snd (PagePool.launch env rev s)) =
        (log s ++ Launch l (launch_options rev po) :: rest)%list.
Proof.
  intros env rev s opts l po Ho Hl Hpo.
  unfold PagePool.launch.
  erewrite bind_ok by reflexivity.
  erewrite bind_ok by (rewrite Ho; reflexivity).
  erewrite bind_ok by (rewrite Ho; reflexivity).
  erewrite bind_ok by (rewrite Ho; reflexivity).
  cbn [get_prop]. rewrite Hl, Hpo.
  erewrite bind_ok by reflexivity.
  destruct (write_back_ok
              (VObject (store "args"
                          (js_or (lookup "args" po) (defaultPuppeteerArgs rev))
                          po)) s) as [s1 [E [L1 _]]].
  erewrite bind_ok by exact E.
  rewrite <- L1. fold (launch_options rev po).
  revert s1 E L1.
  assert (starts (Launch l (launch_options rev po))
            (PagePool.launch_browser env (VPuppeteer l) (launch_options rev po)))
    as Hlb.
  { unfold PagePool.launch_browser. apply starts_emit. frame. }
  match goal with
  | |- forall s1, _ -> _ -> exists rest, log (snd (?c s1)) = _ =>
      assert (starts (Launch l (launch_options rev po)) c) as Hs
  end.
  { apply starts_bind; [|intros ?; frame].
    destruct rev.
    - apply starts_bind; [exact Hlb | intros ?; frame].
    - apply starts_bind; [|intros ?; frame].
      apply starts_try_catch; [exact Hlb | intros ?; frame]. }
  intros s1 _ _. apply Hs.
Qed.

(** X3: the options [launch] hands to [puppeteer.launch] are the configured
    [puppeteerOptions] with [args] set: to the configured [args] when they
    are truthy, never merged with the defaults, and to
    [Helpers.defaultPuppeteerArgs] otherwise; every other property is passed
    on as configured. *)
Theorem launch_passes_configured_options :
  forall env rev s opts l po,
    options (this s) = VObject opts ->
    or_default (lookup "puppeteer" opts) defaultPuppeteer = VPuppeteer l ->
    or_default (lookup "puppeteerOptions" opts) (VObject []) = VObject po ->
    exists po' rest,
      log (snd (PagePool.launch env rev s)) =
        (log s ++ Launch l (VObject po') :: rest)%list
      /\ lookup "args" po'
         = js_or (lookup "args" po) (defaultPuppeteerArgs rev)
      /\ (to_boolean (lookup "args" po) = true ->
          lookup "args" po' = lookup "args" po)
      /\ (forall key, key <> "args" -> lookup key po' = lookup key po).
Proof.
  intros env rev s opts l po Ho Hl Hpo.
  destruct (launch_reaches_puppeteer env rev s opts l po Ho Hl Hpo) as [rest L].
  eexists. exists rest. split; [exact L|]. split; [|split].
  - apply lookup_store_same.
  - intros Ht. rewrite lookup_store_same. unfold js_or. rewrite Ht. reflexivity.
  - intros key Hne. apply lookup_store_other. exact Hne.
Qed.

Lemma launch_passes_configured_options_witness :
  exists po' rest,
    log (snd (PagePool.launch Sample.env IndexJs
                (Sample.fresh (PagePool.constructor
                   (VObject [("puppeteerOptions",
                              VObject [("headless", VBool false);
                                       ("args", VArray [VStr "--no-sandbox"])])])))))
      = Launch 0 (VObject po') :: rest
    /\ lookup "args" po' = VArray [VStr "--no-sandbox"]
    /\ lookup "headless" po' = VBool false.
Proof.
  destruct (launch_passes_configured_options Sample.env IndexJs
              (Sample.fresh (PagePool.constructor
                 (VObject [("puppeteerOptions",
                            VObject [("headless", VBool false);
                                     ("args", VArray [VStr "--no-sandbox"])])])))
              _ 0 _ eq_refl eq_refl eq_refl)
    as [po' [rest [L [_ [Hargs Hkeys]]]]].
  exists po', rest. split; [exact L|]. split.
  - exact (Hargs eq_refl).
  - apply Hkeys. discriminate.
Defined.



(** X5: a [puppeteerOptions] that is [null] or another primitive (the
    default only replaces [undefined]) makes [launch] throw a TypeError
    before anything is launched, logged or changed. *)
Theorem launch_rejects_primitive_puppeteerOptions :
  forall env rev s opts v,
    options (this s) = VObject opts ->
    lookup "puppeteerOptions" opts = v ->
    v <> VUndefined ->
    is_primitive v = true ->
    PagePool.launch env rev s = (Err type_error, s).
Proof.
  intros env rev s opts v Ho Hv Hne Hp.
  unfold PagePool.launch, PagePool.assign_args. js. rewrite Ho. js. rewrite Hv.
  destruct v; try discriminate Hp; try contradiction; reflexivity.
Qed.

Lemma launch_rejects_primitive_puppeteerOptions_witness :
  PagePool.launch Sample.env Part000
    (Sample.fresh (PagePool.constructor (VObject [("puppeteerOptions", VNull)])))
  = (Err type_error,
     Sample.fresh (PagePool.constructor (VObject [("puppeteerOptions", VNull)]))).
Proof.
  apply (launch_rejects_primitive_puppeteerOptions Sample.env Part000
           (Sample.fresh
              (PagePool.constructor (VObject [("puppeteerOptions", VNull)])))
           [("puppeteerOptions", VNull)] VNull eq_refl eq_refl);
    [discriminate | reflexivity].
Defined.

(** [destroy] either completes, answers [null] and resets the three fields,
    or rejects and leaves them as they were. *)
Lemma destroy_outcome :
  forall env s,
    (fst (PagePool.destroy env s) = Ok VNull
     /\ this (snd (PagePool.destroy env s))
        = {| browser := VNull; options := VNull; pool := VNull |})
    \/ (exists ex,
           fst (PagePool.destroy env s) = Err ex
           /\ this (snd (PagePool.destroy env s)) = this s).
Proof.
  intros env s. destruct s as [l w [b o p]].
  destruct p; destruct b;
    repeat progress (js; cbn [to_boolean]);
    repeat
      (match goal with
       | |- context [pool_drain env ?k ?x] =>
           destruct (pool_drain env k x) as [[? | ?] ?]
       | |- context [pool_clear env ?k ?x] =>
           destruct (pool_clear env k x) as [[? | ?] ?]
       | |- context [browser_close env ?n ?x] =>
           destruct (browser_close env n x) as [[? | ?] ?]
       | |- context [if ?c then _ else _] => destruct c
       end; repeat progress (js; cbn [to_boolean]));
    first [ left; split; reflexivity
          | right; eexists; split; reflexivity ].
Qed.

(** X6: once [destroy] has completed, the instance cannot be used again:
    [launch] and the three factory operations throw a TypeError (there are
    no options to read) and change nothing, [process] reports the missing
    pool, and a second [destroy] does nothing and answers [null]. *)
Theorem destroyed_instance_is_unusable :
  forall env rev s v,
    fst (PagePool.destroy env s) = Ok v ->
    let s' := snd (PagePool.destroy env s) in
    PagePool.launch env rev s' = (Err type_error, s')
    /\ Helpers.poolFactory.create env rev s' = (Err type_error, s')
    /\ (forall page,
           Helpers.poolFactory.validate env rev page s' = (Err type_error, s')
           /\ Helpers.poolFactory.destroy env rev page s' = (Err type_error, s'))
    /\ (forall handler args,
           PagePool.process env handler args s' =
             (Ok VUndefined,
              {| log := log s' ++
                   [Debug "pool is not found. Did you forgot to call launch() method?" []];
                 wld := wld s'; this := this s' |}))
    /\ PagePool.destroy env s' = (Ok VNull, s').
Proof.
  intros env rev s v H s'.
  assert (this s' = {| browser := VNull; options := VNull; pool := VNull |})
    as Hthis.
  { subst s'. destruct (destroy_outcome env s) as [[_ E] | [ex [E _]]];
      [exact E | rewrite E in H; discriminate H]. }
  clearbody s'. destruct s' as [l' w' i']. cbn [this] in Hthis. subst i'.
  repeat split.
Qed.

Lemma destroyed_instance_is_unusable_witness :
  fst (PagePool.launch Sample.env Part000
         (snd (PagePool.destroy Sample.env (Sample.launched []))))
    = Err type_error
  /\ fst (Helpers.poolFactory.destroy Sample.env IndexJs (VPage 0)
            (snd (PagePool.destroy Sample.env (Sample.launched []))))
     = Err type_error.
Proof.
  pose proof (destroyed_instance_is_unusable Sample.env Part000
                (Sample.launched []) VNull eq_refl) as [H1 _].
  pose proof (destroyed_instance_is_unusable Sample.env IndexJs
                (Sample.launched []) VNull eq_refl) as [_ [_ [H2 _]]].
  split.
  - rewrite H1. reflexivity.
  - rewrite (proj2 (H2 (VPage 0))). reflexivity.
Defined.

(** ** The factory, whatever the hooks do *)

(** X7: on a launched instance [create] never throws and answers exactly
    what [newPage] resolved with ([undefined] when it rejected), whatever
    the [onPageCreated] hook does; it asks for one page, and calls the hook
    once when the page is truthy and the hook is a function and not at all
    otherwise. *)
Theorem create_answers_what_was_minted :
  forall env rev s b opts,
    browser (this s) = VBrowser b ->
    options (this s) = VObject opts ->
    exists evs s',
      Helpers.poolFactory.create env rev s
        = (Ok (minted (fst (browser_newPage env b (wld s)))), s')
      /\ log s' = (log s ++ evs)%list
      /\ occurrences is_new_page evs = 1
      /\ occurrences is_call evs
         = if to_boolean (minted (fst (browser_newPage env b (wld s))))
              && is_function (lookup "onPageCreated" opts)
           then 1 else 0.
Proof.
  intros env rev s b opts Hb Ho.
  destruct (browser_newPage env b (wld s)) as [[page|ex] w] eqn:Hn;
    cbn [fst minted].
  - destruct (to_boolean page) eqn:Hp; cbn [andb].
    + destruct (is_function (lookup "onPageCreated" opts)) eqn:Hf.
      * destruct (is_function_inv _ Hf) as [f Ef].
        destruct (apply env f (Some (this s)) [page] w) as [[r|ex] w'] eqn:Ha;
          [destruct rev|];
          (eexists; eexists; split;
           [ js; rewrite Ho, Hb; js; rewrite Ef, Hn; js; rewrite Hp;
             rewrite is_function_VFunction; js; rewrite Ha; js; reflexivity
           | split; [js_done | repeat split] ]).
      * eexists; eexists; split;
          [ js; rewrite Ho, Hb; js; rewrite Hn; js; rewrite Hp;
            rewrite is_function_or_default, Hf; js; reflexivity
          | split; [js_done | repeat split] ].
    + eexists; eexists; split;
        [ js; rewrite Ho, Hb; js; rewrite Hn; js; rewrite Hp; reflexivity
        | split; [js_done | repeat split] ].
  - cbn [to_boolean andb].
    eexists; eexists; split;
      [ js; rewrite Ho, Hb; js; rewrite Hn; js; reflexivity
      | split; [js_done | repeat split] ].
Qed.

(** X8: [destroy] of a page does not guard [page.close()]: when the page
    is still open once the destroy hook has settled and [close()] rejects,
    [destroy] rejects with the same error.  The hook has been called by
    then (once, when it is a function), [close()] has been called once, and
    "page is destroyed" is not reported. *)
Theorem destroy_propagates_close_failure :
  forall env rev s opts p ex,
    options (this s) = VObject opts ->
    let w1 :=
      world_after_hook env (lookup (destroy_hook_name rev) opts) (this s)
        (VPage p) (wld s) in
    existsb (Nat.eqb p) (closed w1) = false ->
    fst (page_close env p w1) = Err ex ->
    exists evs,
      fst (Helpers.poolFactory.destroy env rev (VPage p) s) = Err ex
      /\ log (snd (Helpers.poolFactory.destroy env rev (VPage p) s))
         = (log s ++ evs)%list
      /\ existsb (debug_is "page is destroyed") evs = false
      /\ occurrences is_close_page evs = 1
      /\ occurrences is_call evs
         = if is_function (lookup (destroy_hook_name rev) opts) then 1 else 0.
Proof.
  intros env rev s opts p ex Ho w1 Hc Hx.
  destruct (is_function (lookup (destroy_hook_name rev) opts)) eqn:Hf.
  - destruct (is_function_inv _ Hf) as [f Ef]. subst w1. rewrite Ef in Hc, Hx.
    cbn [world_after_hook] in Hc, Hx.
    destruct (apply env f (Some (this s)) [VPage p] (wld s)) as [r w'] eqn:Ha.
    cbn [snd] in Hc, Hx.
    destruct (page_close env p w') as [c w2] eqn:Hpc. cbn [fst] in Hx. subst c.
    destruct r as [v|ex0]; destruct rev;
      (eexists; split;
       [ js; rewrite Ho; js; rewrite Ef;
         rewrite or_default_VFunction, is_function_VFunction;
         cbn [to_boolean]; js; rewrite Ha; js; rewrite Hc; js; rewrite ?Hpc;
         js; reflexivity
       | split;
         [ js; rewrite Ho; js; rewrite Ef;
           rewrite or_default_VFunction, is_function_VFunction;
           cbn [to_boolean]; js; rewrite Ha; js; rewrite Hc; js; rewrite ?Hpc;
           js_done
         | repeat split ] ]).
  - assert (w1 = wld s) as Ew.
    { subst w1. unfold is_function in Hf.
      destruct (lookup (destroy_hook_name rev) opts); try reflexivity.
      discriminate Hf. }
    rewrite Ew in Hc, Hx.
    destruct (page_close env p (wld s)) as [c w2] eqn:Hpc. cbn [fst] in Hx.
    subst c.
    destruct rev;
      (eexists; split;
       [ js; rewrite Ho; js; rewrite is_function_or_default, Hf;
         cbn [to_boolean]; js; rewrite Hc; js; rewrite ?Hpc; js; reflexivity
       | split;
         [ js; rewrite Ho; js; rewrite is_function_or_default, Hf;
           cbn [to_boolean]; js; rewrite Hc; js; rewrite ?Hpc; js_done
         | repeat split ] ]).
Qed.

Lemma destroy_propagates_close_failure_witness :
  exists evs,
    fst (Helpers.poolFactory.destroy stuck IndexJs (VPage 7)
           (Sample.launched [("onBeforePageDestroy", VFunction 1)]))
      = Err Sample.boom
    /\ log (snd (Helpers.poolFactory.destroy stuck IndexJs (VPage 7)
                   (Sample.launched [("onBeforePageDestroy", VFunction 1)])))
       = evs
    /\ existsb (debug_is "page is destroyed") evs = false.
Proof.
  destruct (destroy_propagates_close_failure stuck IndexJs
              (Sample.launched [("onBeforePageDestroy", VFunction 1)])
              [("onBeforePageDestroy", VFunction 1)] 7 Sample.boom
              eq_refl eq_refl eq_refl)
    as [evs [E [L [Hd _]]]].
  exists evs. split; [exact E|]. split; [exact L | exact Hd].
Defined.

(** ** Processing, whatever the handler and the pool do *)



(** X10: [process_acquire_failure] at a pool that fails the request. *)
Lemma process_acquire_failure_witness :
  PagePool.process exhausted (VFunction 0) [] (Sample.launched [])
  = (Ok VUndefined,
     {| log := [PoolAcquire 0; Debug "process error: %s" [Sample.boom]];
        wld := Sample.calm; this := this (Sample.launched []) |}).
Proof.
  exact (process_acquire_failure exhausted (Sample.launched []) 0 0 []
           Sample.boom Sample.calm eq_refl eq_refl).
Defined.

(** ** The script of [example.js] *)



(** ** The instance stays well formed *)

Lemma stays_well_formed_framing : framing stays_well_formed.
Proof.
  split.
  - intros s H. exact H.
  - intros s1 s2 s3 H1 H2 H. exact (H2 (H1 H)).
  - intros s w H. exact H.
Qed.

#[local] Hint Resolve stays_well_formed_framing : frames.

Lemma preserves_bind_yields :
  forall (R : state -> state -> Prop) (A B : Type) (V : A -> Prop)
         (c : M A) (k : A -> M B),
    framing R ->
    preserves R c -> yields V c ->
    (forall a, V a -> preserves R (k a)) ->
    preserves R (bind c k).
Proof.
  intros R A B V c k HR Hc Hy Hk s. unfold bind. specialize (Hc s).
  specialize (Hy s). destruct (c s) as [[a|ex] s1]; cbn [snd] in Hc.
  - apply (framing_trans R HR _ _ _ Hc). apply Hk. exact (Hy a s1 eq_refl).
  - exact Hc.
Qed.

Lemma launch_browser_yields :
  forall env lib o,
    typed_env env ->
    yields (fun v => exists b, v = VBrowser b)
           (PagePool.launch_browser env lib o).
Proof.
  intros env lib o [_ Ht] s a s' E. unfold PagePool.launch_browser in E.
  destruct lib; try discriminate E.
  unfold bind, emit, external in E. cbn [wld] in E.
  destruct (puppeteer_launch env l o (wld s)) as [[v|ex] w] eqn:Hx;
    [|discriminate E].
  injection E as <- _. exact (Ht _ _ _ _ _ Hx).
Qed.

Lemma set_browser_well_formed :
  forall b,
    match b with VNull | VUndefined | VBrowser _ => True | _ => False end ->
    preserves stays_well_formed (PagePool.set_browser b).
Proof.
  intros b Hb s. unfold stays_well_formed, handles_or_nothing.
  cbn. intros H. apply andb_prop in H. destruct H as [Hp _]. rewrite Hp.
  destruct b; try contradiction; reflexivity.
Qed.

Lemma set_pool_well_formed :
  forall pl,
    match pl with VNull | VUndefined | VPool _ => True | _ => False end ->
    preserves stays_well_formed (PagePool.set_pool pl).
Proof.
  intros pl Hpl s. unfold stays_well_formed, handles_or_nothing.
  cbn. intros H. apply andb_prop in H. destruct H as [_ Hb]. rewrite Hb.
  destruct pl; try contradiction; reflexivity.
Qed.

Lemma write_back_well_formed :
  forall po, preserves stays_well_formed (PagePool.write_back po).
Proof.
  intros po s. destruct (write_back_ok po s) as [s1 [E [_ [_ [Hb Hp]]]]].
  rewrite E. unfold stays_well_formed, handles_or_nothing. cbn [snd].
  rewrite Hb, Hp. exact (fun H => H).
Qed.

Lemma create_pool_then_set_well_formed :
  forall env o,
    typed_env env ->
    preserves stays_well_formed
      (bind (PagePool.create_pool env o) (fun pl => PagePool.set_pool pl)).
Proof.
  intros env o Ht.
  apply (preserves_bind_yields _ _ _
           (fun pl => match pl with
                      | VNull | VUndefined | VPool _ => True
                      | _ => False
                      end)); auto with frames.
  - unfold PagePool.create_pool. frame.
  - intros s a s' E. unfold PagePool.create_pool, bind, emit, ret in E.
    cbn [wld] in E.
    match type of E with
    | context [PagePool.begin_creates ?e ?n ?x] =>
        destruct (PagePool.begin_creates e n x) as [[u|ex] s1]
    end; [|discriminate E].
    injection E as <- _. apply (proj1 Ht).
  - intros pl Hpl. apply set_pool_well_formed. exact Hpl.
Qed.

Lemma launch_well_formed :
  forall env rev,
    typed_env env -> preserves stays_well_formed (PagePool.launch env rev).
Proof.
  intros env rev Ht. unfold PagePool.launch.
  apply preserves_bind; [auto with frames | frame | intros self].
  apply preserves_bind; [auto with frames | frame | intros poolOptions].
  apply preserves_bind; [auto with frames | frame | intros puppeteer].
  apply preserves_bind; [auto with frames | frame | intros po0].
  apply preserves_bind; [auto with frames | frame | intros po].
  apply preserves_bind;
    [auto with frames | apply write_back_well_formed | intros _].
  apply preserves_bind; [auto with frames | | intros _; frame].
  destruct rev.
  - apply (preserves_bind_yields _ _ _ (fun v => exists b, v = VBrowser b));
      [auto with frames | frame | apply launch_browser_yields, Ht |].
    intros b [n ->].
    apply preserves_bind;
      [auto with frames | apply set_browser_well_formed; exact I | intros _].
    apply preserves_bind; [auto with frames | frame | intros _].
    apply create_pool_then_set_well_formed, Ht.
  - apply (preserves_bind_yields _ _ _
             (fun v => v = VUndefined \/ exists b, v = VBrowser b));
      [auto with frames | frame | |].
    + intros s a s' E. destruct puppeteer; try discriminate E.
      unfold try_catch in E.
      destruct (PagePool.launch_browser env (VPuppeteer l) po s)
        as [[v|ex] s1] eqn:El.
      * injection E as <- _. right.
        exact (launch_browser_yields env _ _ Ht _ _ _ El).
      * unfold debug, bind, emit, ret in E. injection E as <- _. left.
        reflexivity.
    + intros b Hb.
      apply preserves_bind; [auto with frames | | intros _].
      * apply set_browser_well_formed.
        destruct Hb as [-> | [n ->]]; exact I.
      * destruct (to_boolean b); [|frame].
        apply preserves_bind; [auto with frames | frame | intros _].
        apply create_pool_then_set_well_formed, Ht.
Qed.

(** X12: with collaborators that answer as their contract says, [launch],
    [process] and [destroy] keep the pool field a pool handle or nothing
    and the browser field a browser handle or nothing, on every path,
    failing ones included. *)
Theorem instance_stays_well_formed :
  forall env rev s,
    typed_env env ->
    handles_or_nothing (this s) = true ->
    handles_or_nothing (this (snd (PagePool.launch env rev s))) = true
    /\ (forall handler args,
           handles_or_nothing
             (this (snd (PagePool.process env handler args s))) = true)
    /\ handles_or_nothing (this (snd (PagePool.destroy env s))) = true.
Proof.
  intros env rev s Ht H. split; [|split].
  - exact (launch_well_formed env rev Ht s H).
  - intros handler args.
    rewrite (proj2 (process_frame env handler args) s). exact H.
  - destruct (destroy_outcome env s) as [[_ E] | [ex [_ E]]]; rewrite E;
      [reflexivity | exact H].
Qed.


Lemma launch_without_pool_witness :
  exists s',
    PagePool.launch poolless IndexJs Sample.created = (Ok VUndefined, s')
    /\ fst (PagePool.destroy poolless s') = Ok VNull
    /\ log (snd (PagePool.destroy poolless s'))
       = (log s' ++ [CloseBrowser 0; Debug "browser is closed" []])%list.
Proof.
  destruct (launch_without_pool poolless IndexJs Sample.created [] 0 []
              (VBrowser 0) Sample.calm
              eq_refl eq_refl eq_refl eq_refl eq_refl eq_refl)
    as [s' [E [L [_ [_ Hd]]]]].
  exists s'. split; [exact E|].
  assert (wld s' = Sample.calm) as Hw.
  { injection E as <-. reflexivity. }
  rewrite (Hd 0 VUndefined Sample.calm eq_refl
             ltac:(rewrite Hw; reflexivity)).
  split; reflexivity.
Defined.

(** X15: [launch_failure_reported_part000] at a library that cannot
    launch. *)
Lemma launch_failure_reported_part000_witness :
  exists s',
    PagePool.launch Sample.offline Part000 Sample.created = (Ok VUndefined, s')
    /\ pool (this s') = VNull.
Proof.
  destruct (launch_failure_reported_part000 Sample.offline Sample.created []
              0 [] Sample.boom Sample.calm
              eq_refl eq_refl eq_refl eq_refl eq_refl)
    as [s' [E [_ [Hp _]]]].
  exists s'. split; assumption.
Defined.

(** X16: [launch_failure_propagates_index_js] at a library that cannot
    launch. *)
Lemma launch_failure_propagates_index_js_witness :
  exists s',
    PagePool.launch Sample.offline IndexJs Sample.created = (Err Sample.boom, s')
    /\ pool (this s') = VNull.
Proof.
  destruct (launch_failure_propagates_index_js Sample.offline Sample.created []
              0 [] Sample.boom Sample.calm eq_refl eq_refl eq_refl eq_refl)
    as [s' [E [_ [Hp _]]]].
  exists s'. split; assumption.
Defined.

Lemma create_answers_what_was_minted_witness :
  (exists evs s',
      Helpers.poolFactory.create Sample.env Part000
        (Sample.launched [("onPageCreated", VFunction 0)]) = (Ok (VPage 0), s')
      /\ log s' = evs /\ occurrences is_call evs = 1)
  /\ (exists s',
      Helpers.poolFactory.create Sample.env IndexJs
        (Sample.fresh {| browser := VBrowser 1; options := VObject [];
                         pool := VPool 0 |}) = (Ok VUndefined, s')).
Proof.
  split.
  - destruct (create_answers_what_was_minted Sample.env Part000
                (Sample.launched [("onPageCreated", VFunction 0)]) 0
                [("onPageCreated", VFunction 0)] eq_refl eq_refl)
      as [evs [s' [E [L [_ Hc]]]]].
    exists evs, s'. split; [exact E|]. split; [exact L | exact Hc].
  - destruct (create_answers_what_was_minted Sample.env IndexJs
                (Sample.fresh {| browser := VBrowser 1; options := VObject [];
                                 pool := VPool 0 |}) 1 [] eq_refl eq_refl)
      as [evs [s' [E _]]].
    exists s'. exact E.
Defined.


Lemma sample_env_typed : typed_env Sample.env.
Proof.
  split.
  - intros o w. exact I.
  - intros l o w v w' E. destruct l; cbn in E; [|discriminate E].
    injection E as <- _. exists 0. reflexivity.
Defined.

Lemma instance_stays_well_formed_witness :
  handles_or_nothing
    (this (snd (PagePool.launch Sample.env Part000 Sample.created))) = true
  /\ handles_or_nothing
       (this (snd (PagePool.destroy Sample.env (Sample.launched []))))
     = true.
Proof.
  split.
  - exact (proj1 (instance_stays_well_formed Sample.env Part000 Sample.created
                    sample_env_typed eq_refl)).
  - exact (proj2 (proj2 (instance_stays_well_formed Sample.env Part000
                           (Sample.launched []) sample_env_typed eq_refl))).
Defined.

(** X13: the factory operations only ever append to the log, and only
    events of their own: [create] a [newPage] call, hook calls and
    diagnostics; [validate] hook calls and diagnostics, so it never closes
    or opens a page; [destroy] hook calls, the page's [isClosed] and [close]
    and diagnostics.  None touches the pool or the browser's life cycle.
    This holds for every input, on every path, failing ones included. *)
Theorem factory_logs_only_its_own_events :
  forall env rev page s,
    (exists evs,
        log (snd (Helpers.poolFactory.create env rev s)) = (log s ++ evs)%list
        /\ forallb create_event evs = true)
    /\ (exists evs,
        log (snd (Helpers.poolFactory.validate env rev page s))
          = (log s ++ evs)%list
        /\ forallb validate_event evs = true)
    /\ (exists evs,
        log (snd (Helpers.poolFactory.destroy env rev page s))
          = (log s ++ evs)%list
        /\ forallb destroy_page_event evs = true).
Proof.
  intros env rev page s.
  destruct (create_frame env rev) as [C1 _].
  destruct (validate_frame env rev page) as [V1 _].
  destruct (destroy_page_frame env rev page) as [D1 _].
  repeat split; [apply C1 | apply V1 | apply D1].
Qed.


(** ** How the hooks are called *)

Ltac hook_calls :=
  repeat first [apply Forall_nil | apply Forall_cons];
  let H := fresh "H" in
  cbn [is_call]; intros H;
  first [discriminate H | eexists; (split; [eassumption | reflexivity])].

(** X17: whenever a factory operation calls a hook, the hook is the function
    configured under the operation's option, it is bound to the instance
    ([this] inside the hook), and it is given the page as its only
    argument. *)
Theorem hooks_are_bound_to_the_instance :
  forall env rev s opts b page,
    options (this s) = VObject opts ->
    browser (this s) = VBrowser b ->
    let bound_call name arg e :=
      is_call e = true ->
      exists f, lookup name opts = VFunction f
                /\ e = Call f (Some (this s)) [arg] in
    (exists evs,
        log (snd (Helpers.poolFactory.create env rev s)) = (log s ++ evs)%list
        /\ Forall (bound_call "onPageCreated"
                     (minted (fst (browser_newPage env b (wld s))))) evs)
    /\ (exists evs,
        log (snd (Helpers.poolFactory.validate env rev page s))
          = (log s ++ evs)%list
        /\ Forall (bound_call "onValidate" page) evs)
    /\ (exists evs,
        log (snd (Helpers.poolFactory.destroy env rev page s))
          = (log s ++ evs)%list
        /\ Forall (bound_call (destroy_hook_name rev) page) evs).
Proof.
  intros env rev s opts b page Ho Hb bound_call. subst bound_call.
  split; [|split].
  - destruct (browser_newPage env b (wld s)) as [[pg|ex] w] eqn:Hn;
      cbn [fst minted].
    + destruct (to_boolean pg) eqn:Hp.
      * destruct (is_function (lookup "onPageCreated" opts)) eqn:Hf.
        -- destruct (is_function_inv _ Hf) as [f Ef].
           destruct (apply env f (Some (this s)) [pg] w) as [[r|ex] w'] eqn:Ha;
             [destruct rev|];
             (eexists; split;
              [ js; rewrite Ho, Hb; js; rewrite Ef, Hn; js; rewrite Hp;
                rewrite is_function_VFunction; js; rewrite Ha; js_done
              | hook_calls ]).
        -- eexists; split;
             [ js; rewrite Ho, Hb; js; rewrite Hn; js; rewrite Hp;
               rewrite is_function_or_default, Hf; js_done
             | hook_calls ].
      * eexists; split;
          [ js; rewrite Ho, Hb; js; rewrite Hn; js; rewrite Hp; js_done
          | hook_calls ].
    + eexists; split;
        [ js; rewrite Ho, Hb; js; rewrite Hn; js_done | hook_calls ].
  - destruct (to_boolean page) eqn:Hp.
    + destruct (is_function (lookup "onValidate" opts)) eqn:Hf.
      * destruct (is_function_inv _ Hf) as [f Ef].
        destruct (apply env f (Some (this s)) [page] (wld s))
          as [[r|ex] w'] eqn:Ha; [destruct rev|];
          (eexists; split;
           [ js; rewrite Ho; js; rewrite Hp, Ef;
             rewrite or_default_VFunction, is_function_VFunction; js;
             rewrite Ha; js_done
           | hook_calls ]).
      * exists []. split; [|constructor].
        js. rewrite Ho. js. rewrite Hp, is_function_or_default, Hf.
        cbn [snd log]. rewrite app_nil_r. reflexivity.
    + exists []. split; [|constructor].
      js. rewrite Ho. js. rewrite Hp. cbn [snd log]. rewrite app_nil_r.
      reflexivity.
  - destruct (to_boolean page) eqn:Hp.
    + destruct (is_function (lookup (destroy_hook_name rev) opts)) eqn:Hf.
      * destruct (is_function_inv _ Hf) as [f Ef].
        destruct (apply env f (Some (this s)) [page] (wld s))
          as [[r|ex] w'] eqn:Ha; [destruct rev|];
          destruct page; try discriminate Hp;
          try (eexists; split;
               [ js; rewrite Ho; js; rewrite Ef;
                 rewrite or_default_VFunction, is_function_VFunction;
                 rewrite ?Hp; cbn [to_boolean]; js; rewrite Ha; js_done
               | hook_calls ]);
          (destruct (existsb (Nat.eqb p) (closed w')) eqn:Hc;
           destruct (page_close env p w') as [[?|?] ?] eqn:Hpc;
           (eexists; split;
            [ js; rewrite Ho; js; rewrite Ef;
              rewrite or_default_VFunction, is_function_VFunction;
              cbn [to_boolean]; js; rewrite Ha; js; rewrite Hc; js;
              rewrite ?Hpc; js_done
            | hook_calls ])).
      * destruct page; try discriminate Hp;
          try (eexists; split;
               [ js; rewrite Ho; js; rewrite is_function_or_default, Hf;
                 rewrite ?Hp; cbn [to_boolean]; js_done
               | hook_calls ]);
          try (exists []; split; [|constructor];
               js; rewrite Ho; js; rewrite is_function_or_default, Hf;
               rewrite ?Hp; cbn [to_boolean snd log]; rewrite app_nil_r;
               reflexivity);
          (destruct (existsb (Nat.eqb p) (closed (wld s))) eqn:Hc;
           destruct (page_close env p (wld s)) as [[?|?] ?] eqn:Hpc;
           (eexists; split;
            [ js; rewrite Ho; js; rewrite is_function_or_default, Hf;
              cbn [to_boolean]; js; rewrite Hc; js; rewrite ?Hpc; js_done
            | hook_calls ])).
    + exists []. split; [|constructor].
      js. rewrite Ho. js. rewrite Hp. cbn [snd log]. rewrite app_nil_r.
      reflexivity.
Qed.

Lemma hooks_are_bound_to_the_instance_witness :
  exists evs,
    log (snd (Helpers.poolFactory.validate Sample.env IndexJs (VPage 0)
                (Sample.launched [("onValidate", VFunction 2)]))) = evs
    /\ Forall
         (fun e =>
            is_call e = true ->
            exists f,
              lookup "onValidate" [("onValidate", VFunction 2)] = VFunction f
              /\ e = Call f
                       (Some (this (Sample.launched
                                      [("onValidate", VFunction 2)])))
                       [VPage 0])
         evs.
Proof.
  destruct (hooks_are_bound_to_the_instance Sample.env IndexJs
              (Sample.launched [("onValidate", VFunction 2)])
              [("onValidate", VFunction 2)] 0 (VPage 0) eq_refl eq_refl)
    as [_ [[evs [L F]] _]].
  exists evs. split; [exact L | exact F].
Defined.
